(** * Conversation context manager and chat service of the python backend

    A shallow embedding of [python-backend/chat_service.py] and of the part of
    [python-backend/deepseek_client.py] it calls, followed by the properties
    of the context store and of the turn orchestration.

    Conventions of the embedding.
    - A Python [str] is a [string]; one Rocq character stands for one Python
      character, so [String.length] is Python's [len].
    - A Python [int] is a [Z]; a [datetime] is a [Z] (microseconds), a
      [timedelta] is a difference of two of them.
    - A [float] literal ([0.3], [0.7]) is the rational it denotes: the
      temperatures are only passed along, never computed with.
    - [dict]s with a fixed set of keys are records; [self.sessions] is a
      [gmap string ChatSession].
    - [datetime.now()], [uuid.uuid4()] and the answer of the remote endpoint
      are read from three oracles indexed by the number of earlier reads. *)

From Stdlib Require Import ZArith QArith String Ascii List Lia.
From stdpp Require Import gmap strings list pretty.

Local Open Scope Z_scope.
Local Open Scope string_scope.

(** ** Python string primitives *)

Module Py.

(** [c.lower()] on one character: the letters A to Z are mapped, every
    other character is kept. *)
Definition lower_char (c : ascii) : ascii :=
  let n := nat_of_ascii c in
  if ((65 <=? n) && (n <=? 90))%nat then ascii_of_nat (n + 32) else c.

(** [s.lower()] *)
Fixpoint lower (s : string) : string :=
  match s with
  | EmptyString => EmptyString
  | String c r => String (lower_char c) (lower r)
  end.

(** [needle in hay] *)
Fixpoint contains (needle hay : string) : bool :=
  String.prefix needle hay ||
  match hay with
  | EmptyString => false
  | String _ r => contains needle r
  end.

(** [s * n]: [n] copies of [s], none for a negative [n]. *)
Fixpoint copies (s : string) (n : nat) : string :=
  match n with
  | O => EmptyString
  | S k => s ++ copies s k
  end.

Definition mul (s : string) (n : Z) : string := copies s (Z.to_nat n).

(** [a or b] for an optional string [a] and a string [b]: [a] unless it
    is [None] or empty. *)
Definition or_else (a : option string) (b : string) : string :=
  match a with
  | Some (String c r) => String c r
  | _ => b
  end.

End Py.

(** ** Data model: [ChatMessage] and [ChatSession] *)

Record ChatMessage := mkChatMessage {
  id : string;
  role : string;                 (* 'user', 'assistant', 'system' *)
  content : string;
  thinking : option string;
  timestamp : Z;
  tokens : Z
}.

Record ChatSession := mkChatSession {
  session_id : string;
  messages : list ChatMessage;
  created_at : Z;
  last_active : Z;
  max_context_tokens : Z
}.

(** The entries of the list handed to the remote API: role and content. *)
Record ApiMessage := mkApiMessage {
  api_role : string;
  api_content : string
}.

(** In-place updates of a session object. *)
Definition set_messages (l : list ChatMessage) (s : ChatSession) : ChatSession :=
  mkChatSession (session_id s) l (created_at s) (last_active s) (max_context_tokens s).

Definition set_last_active (t : Z) (s : ChatSession) : ChatSession :=
  mkChatSession (session_id s) (messages s) (created_at s) t (max_context_tokens s).

(** ** Token estimate and the eviction loop *)

(** [ChatContextManager._estimate_tokens]: [len(text) // 4]. *)
Definition _estimate_tokens (text : string) : Z :=
  Z.of_nat (String.length text) / 4.

(** The first loop of [_truncate_context]: the estimates of the stored
    messages, added up walking the list from its end. *)
Definition count_tokens (msgs : list ChatMessage) : Z :=
  fold_left (fun total msg => total + _estimate_tokens (content msg)) (rev msgs) 0.

(** The [while] loop of [_truncate_context]: as long as the running total
    exceeds the limit and more than one message is left, [pop(0)] and
    subtract the estimate of the removed message. *)
Fixpoint truncate_loop (limit total : Z) (msgs : list ChatMessage)
  : list ChatMessage :=
  match msgs with
  | removed_msg :: (_ :: _) as rest =>
      if total >? limit
      then truncate_loop limit (total - _estimate_tokens (content removed_msg)) rest
      else msgs
  | _ => msgs
  end.

Definition truncate (limit : Z) (msgs : list ChatMessage) : list ChatMessage :=
  truncate_loop limit (count_tokens msgs) msgs.

(** ** The remote completion endpoint, as seen by [DeepSeekClient] *)

(** The arguments of one call of [DeepSeekClient.chat_completion]. *)
Record Completion := mkCompletion {
  req_messages : list ApiMessage;
  req_temperature : Q;
  req_max_tokens : Z;
  req_enable_thinking : bool
}.

(** What [requests.post] and the decoding of its answer can do inside
    [chat_completion]. *)
Inductive HttpOutcome :=
| Http429 (retry_after : Z)              (* status 429; Retry-After as an int, 60 if absent *)
| Http401                                (* status 401 *)
| HttpTimeout                            (* requests.exceptions.Timeout *)
| HttpConnectionError                    (* requests.exceptions.ConnectionError *)
| HttpRequestException (text : string)   (* any other RequestException, str(e) = text *)
| HttpKeyError (text : string)           (* KeyError while decoding, str(e) = text *)
| HttpOtherException (text : string)     (* an exception no clause handles, str(e) = text *)
| HttpOk (answer : string) (trace : option string).
                                         (* content, and message['thinking'] when present *)

(** [DeepSeekResponse]; the [usage] dictionary is read by nobody here. *)
Record DeepSeekResponse := mkDeepSeekResponse {
  resp_content : string;
  resp_model : string;
  resp_thinking : option string
}.

(** ** Program state and the monad of the embedding *)

Record ChatContextManager := mkChatContextManager {
  mgr_max_context_tokens : Z;
  sessions : gmap string ChatSession
}.

Record World := mkWorld {
  clock_reads : nat;                 (* calls of datetime.now() so far *)
  uuid_draws : nat;                  (* calls of uuid.uuid4() so far *)
  requests : list Completion;        (* calls of chat_completion so far, oldest first *)
  context_manager : ChatContextManager
}.

(** A call either returns a value or raises; an exception is represented by
    [str(e)], the only thing the handler of [send_message] reads. *)
Inductive outcome (A : Type) : Type :=
| Returns (a : A)
| Raises (e : string).
Arguments Returns {A} a.
Arguments Raises {A} e.

Definition M (A : Type) : Type := World -> outcome A * World.

Definition ret {A} (a : A) : M A := fun w => (Returns a, w).

Definition raise {A} (e : string) : M A := fun w => (Raises e, w).

(** Sequencing: what was mutated before an exception stays mutated. *)
Definition bind {A B} (m : M A) (k : A -> M B) : M B :=
  fun w =>
    match m w with
    | (Returns a, w') => k a w'
    | (Raises e, w') => (Raises e, w')
    end.

(** [try: body except Exception as e: handler(str(e))] *)
Definition try_except {A} (body : M A) (handler : string -> M A) : M A :=
  fun w =>
    match body w with
    | (Returns a, w') => (Returns a, w')
    | (Raises e, w') => handler e w'
    end.

Notation "'do' x <- m ; k" := (bind m (fun x => k))
  (at level 10, x name, m at level 100, k at level 200).
Notation "m ;; k" := (bind m (fun _ => k))
  (at level 100, k at level 200, right associativity).

Definition get_manager : M ChatContextManager :=
  fun w => (Returns (context_manager w), w).

(** Any mutation of [self.sessions] or of a session object stored in it. *)
Definition update_sessions (f : gmap string ChatSession -> gmap string ChatSession)
  : M unit :=
  fun w =>
    let mgr := context_manager w in
    (Returns tt,
     mkWorld (clock_reads w) (uuid_draws w) (requests w)
       (mkChatContextManager (mgr_max_context_tokens mgr) (f (sessions mgr)))).

(** [self.sessions[session_id]] *)
Definition lookup_session (session_id : string) : M ChatSession :=
  do mgr <- get_manager;
  match sessions mgr !! session_id with
  | Some session => ret session
  | None => raise ("'" ++ session_id ++ "'")
  end.

(** [session_id in self.sessions] *)
Definition has_session (session_id : string) : M bool :=
  do mgr <- get_manager;
  ret (bool_decide (is_Some (sessions mgr !! session_id))).

Section Backend.

(** The environment: the successive values of [datetime.now()] and of
    [str(uuid.uuid4())]. *)
Variable clock : nat -> Z.
Variable uuid_src : nat -> string.

Definition now : M Z :=
  fun w =>
    (Returns (clock (clock_reads w)),
     mkWorld (S (clock_reads w)) (uuid_draws w) (requests w) (context_manager w)).

Definition uuid4 : M string :=
  fun w =>
    (Returns (uuid_src (uuid_draws w)),
     mkWorld (clock_reads w) (S (uuid_draws w)) (requests w) (context_manager w)).

(** [ChatMessage(id=str(uuid.uuid4()), role=..., content=..., thinking=...,
    tokens=...)]: the id is drawn first, [__post_init__] then reads the
    clock. *)
Definition new_message (role content : string) (thinking : option string)
    (tokens : Z) : M ChatMessage :=
  do id <- uuid4;
  do timestamp <- now;
  ret (mkChatMessage id role content thinking timestamp tokens).

(** *** [ChatContextManager] *)

Definition create_session (session_id : option string) : M string :=
  do session_id <- match session_id with
                   | None => uuid4
                   | Some s => ret s
                   end;
  do created_at <- now;
  do last_active <- now;
  do self <- get_manager;
  let session :=
    mkChatSession session_id [] created_at last_active (mgr_max_context_tokens self) in
  update_sessions (insert session_id session);;
  ret session_id.

Definition _truncate_context (session_id : string) : M unit :=
  do session <- lookup_session session_id;
  do self <- get_manager;
  update_sessions
    (alter (fun s => set_messages
                       (truncate (mgr_max_context_tokens self) (messages s)) s)
           session_id).

Definition add_message (session_id : string) (message : ChatMessage) : M unit :=
  do known <- has_session session_id;
  (if known then ret tt else create_session (Some session_id);; ret tt);;
  do session <- lookup_session session_id;
  update_sessions
    (alter (fun s => set_messages (messages s ++ [message]) s) session_id);;
  do t <- now;
  update_sessions (alter (set_last_active t) session_id);;
  (* Truncate if needed *)
  _truncate_context session_id.

(** The list returned and its entries are new objects: what the caller does
    to them later does not reach the stored session. *)
Definition get_context_messages (session_id : string) : M (list ApiMessage) :=
  do self <- get_manager;
  match sessions self !! session_id with
  | None => ret []
  | Some session =>
      ret (map (fun msg => mkApiMessage (role msg) (content msg)) (messages session))
  end.

(** [timedelta(hours=hours)] in microseconds. *)
Definition hours_delta (hours : Z) : Z := hours * 3600000000.

Definition cleanup_old_sessions (hours : Z) : M nat :=
  do t <- now;
  let cutoff := t - hours_delta hours in
  do self <- get_manager;
  let expired_sessions :=
    filter (fun kv => last_active (snd kv) < cutoff) (map_to_list (sessions self)) in
  update_sessions (fun m => foldr (fun kv m => delete (fst kv) m) m expired_sessions);;
  ret (length expired_sessions).

End Backend.

(** ** Prompt texts *)

(** The default system prompt of [DeepSeekClient.thinking_chat]. *)
Definition thinking_default_system : string :=
  "You are DeepSeek-V3.1, an advanced AI assistant. 
When thinking mode is enabled, you should:
1. Break down complex problems step by step
2. Show your reasoning process clearly
3. Consider multiple approaches
4. Explain your final decision

Think through the problem carefully before providing your final response.".

(** The [system] entries of [ChatService.prompt_templates]. These texts are
    sent as they are and never measured. *)
Definition fast_code_system : string :=
  "You are an expert software engineer focused on fast, accurate code generation.
                
GUIDELINES:
- Generate clean, working code immediately
- Use best practices and established patterns
- Include brief inline comments for clarity
- Prioritize correctness and readability
- Provide complete, runnable solutions

RESPONSE FORMAT:
- Start with a brief explanation (1-2 lines)
- Provide the complete code
- End with usage instructions if needed".

Definition deep_reasoning_system : string :=
  "You are an expert software architect and problem solver.

When analyzing complex problems:
1. Break down the problem into core components
2. Identify potential solutions and their trade-offs
3. Consider scalability, maintainability, and performance
4. Recommend the best approach with clear reasoning
5. Provide implementation guidance

THINKING PROCESS:
- Analyze requirements systematically
- Consider edge cases and failure modes
- Evaluate architectural implications
- Think through the complete solution lifecycle".

Definition code_review_system : string :=
  "You are a senior code reviewer focused on quality, security, and best practices.

REVIEW CRITERIA:
1. **Code Quality**: Readability, maintainability, adherence to standards
2. **Performance**: Efficiency, scalability, resource usage
3. **Security**: Vulnerabilities, input validation, data handling
4. **Architecture**: Design patterns, separation of concerns, modularity
5. **Testing**: Testability, edge cases, error handling

REVIEW FORMAT:
✅ **Strengths**: What's done well
⚠️ **Issues**: Problems found (categorized by severity)
🔧 **Recommendations**: Specific improvements with code examples
📝 **Summary**: Overall assessment and priority actions".

(** ** [DeepSeekClient] *)

Definition model_name : string := "deepseek-ai/DeepSeek-V3.1".

(** The defaults of [chat_completion]: [temperature=0.7], [max_tokens=4000]. *)
Definition default_temperature : Q := 7 # 10.
Definition default_max_tokens : Z := 4000.

Section Client.

(** The behaviour of the remote endpoint at its successive calls. *)
Variable remote : nat -> Completion -> HttpOutcome.

(** [DeepSeekClient.chat_completion]: the request is recorded, then the
    endpoint answers; every failure leaves as an exception whose text is
    the one the source builds. *)
Definition chat_completion (messages : list ApiMessage) (temperature : Q)
    (max_tokens : Z) (enable_thinking : bool) : M DeepSeekResponse :=
  fun w =>
    let call := mkCompletion messages temperature max_tokens enable_thinking in
    let w' := mkWorld (clock_reads w) (uuid_draws w) (requests w ++ [call])%list
                (context_manager w) in
    match remote (length (requests w)) call with
    | Http429 retry_after =>
        (Raises ("Rate limited. Retry after " ++ pretty retry_after ++ " seconds"), w')
    | Http401 =>
        (Raises "Invalid API key. Check your SILICONFLOW_KEY", w')
    | HttpTimeout =>
        (Raises "Request timed out. DeepSeek server might be overloaded", w')
    | HttpConnectionError =>
        (Raises "Connection error. Check your internet connection", w')
    | HttpRequestException text =>
        (Raises ("Request failed: " ++ text), w')
    | HttpKeyError text =>
        (Raises ("Unexpected response format: missing " ++ text), w')
    | HttpOtherException text =>
        (Raises text, w')
    | HttpOk answer trace =>
        let thinking := if enable_thinking then trace else None in
        (Returns (mkDeepSeekResponse answer model_name thinking), w')
    end.

Definition simple_chat (user_message : string) (system_prompt : option string)
  : M string :=
  let messages : list ApiMessage := [] in
  let messages :=
    match system_prompt with
    | Some (String c r) => (messages ++ [mkApiMessage "system" (String c r)])%list
    | _ => messages                 (* None or the empty string *)
    end in
  let messages := (messages ++ [mkApiMessage "user" user_message])%list in
  do response <- chat_completion messages default_temperature default_max_tokens false;
  ret (resp_content response).

Definition thinking_chat (user_message : string) (system_prompt : option string)
  : M (string * string) :=
  let thinking_system := Py.or_else system_prompt thinking_default_system in
  let messages :=
    [mkApiMessage "system" thinking_system; mkApiMessage "user" user_message] in
  do response <- chat_completion messages (3 # 10) default_max_tokens true;
  ret (resp_content response,
       Py.or_else (resp_thinking response) "No thinking process available").

End Client.

(** ** [ChatService] *)

Record Template := mkTemplate {
  tpl_system : string;
  tpl_temperature : Q;
  tpl_thinking : bool
}.

Definition fast_code_template : Template :=
  mkTemplate fast_code_system (3 # 10) false.

Definition prompt_templates : gmap string Template :=
  <["fast_code" := fast_code_template]>
  (<["deep_reasoning" := mkTemplate deep_reasoning_system (2 # 10) true]>
  (<["code_review" := mkTemplate code_review_system (1 # 10) true]> ∅)).

(** The dictionary returned on success. *)
Record SuccessResponse := mkSuccessResponse {
  message_id : string;
  response : string;
  res_thinking : option string;
  res_mode : string;
  res_session_id : string;
  context_length : nat;
  tokens_used : Z
}.

(** The dictionary returned on failure; [retry_after] is a key that may be
    missing. *)
Record ErrorResponse := mkErrorResponse {
  error : string;
  err_session_id : string;
  err_mode : string;
  error_type : string;
  retry_after : option Z
}.

Inductive TurnResult :=
| Success (r : SuccessResponse)      (* "success": True *)
| Failure (r : ErrorResponse).       (* "success": False *)

(** The block "Categorize error types" of the handler of [send_message]:
    the category and the optional retry delay, from [str(e)]. *)
Definition categorize_error (e : string) : string * option Z :=
  let error_str := Py.lower e in
  if Py.contains "rate limit" error_str || Py.contains "429" error_str
  then ("rate_limit", Some 60)
  else if Py.contains "invalid api key" error_str || Py.contains "401" error_str
  then ("auth_error", None)
  else if Py.contains "timeout" error_str || Py.contains "504" error_str
  then ("timeout", Some 30)
  else ("unknown", None).

Definition error_response (e session_id mode : string) : ErrorResponse :=
  let cat := categorize_error e in
  mkErrorResponse e session_id mode (fst cat) (snd cat).

Section Service.

Variable clock : nat -> Z.
Variable uuid_src : nat -> string.
Variable remote : nat -> Completion -> HttpOutcome.

(** The outbound list built by [send_message] after the user message was
    stored: the session's context, with a system message in front when the
    context holds exactly one message. *)
Definition outbound (system_prompt : string) (context_messages : list ApiMessage)
  : list ApiMessage :=
  if (length context_messages =? 1)%nat
  then mkApiMessage "system" system_prompt :: context_messages
  else context_messages.

Definition send_message (session_id user_message mode : string)
    (custom_system_prompt : option string) : M TurnResult :=
  try_except
    ((* Get or create session *)
     do known <- has_session session_id;
     (if known then ret tt else create_session clock uuid_src (Some session_id);; ret tt);;
     (* Add user message to context *)
     do user_msg <- new_message clock uuid_src "user" user_message None
                      (_estimate_tokens user_message);
     add_message clock uuid_src session_id user_msg;;
     (* Prepare messages for API *)
     do context_messages <- get_context_messages session_id;
     (* self.prompt_templates.get(mode, self.prompt_templates["fast_code"]) *)
     let template := default fast_code_template (prompt_templates !! mode) in
     let system_prompt := Py.or_else custom_system_prompt (tpl_system template) in
     let context_messages := outbound system_prompt context_messages in
     (* Call DeepSeek API *)
     do reply <-
       (if tpl_thinking template
        then do r <- thinking_chat remote user_message (Some system_prompt);
             ret (fst r, Some (snd r))
        else do r <- simple_chat remote user_message (Some system_prompt);
             ret (r, None));
     let response_content := fst reply in
     let thinking := snd reply in
     (* Add assistant response to context *)
     do assistant_msg <- new_message clock uuid_src "assistant" response_content
                           thinking (_estimate_tokens response_content);
     add_message clock uuid_src session_id assistant_msg;;
     ret (Success (mkSuccessResponse (id assistant_msg) response_content thinking
                     mode session_id (length context_messages)
                     (tokens assistant_msg))))
    (fun e => ret (Failure (error_response e session_id mode))).

(** The entries returned carry all six fields of the stored message. *)
Definition get_chat_history (session_id : string) : M (list ChatMessage) :=
  do self <- get_manager;
  match sessions self !! session_id with
  | None => ret []
  | Some session =>
      ret (filter (fun msg => role msg = "user" \/ role msg = "assistant")
             (messages session))
  end.

Definition clear_session (session_id : string) : M bool :=
  do known <- has_session session_id;
  if known
  then update_sessions (delete session_id);; ret true
  else ret false.

End Service.

(** The state of a freshly constructed [ChatService]: a context manager with
    the default limit of 6000 and no session. *)
Definition initial_world : World :=
  mkWorld 0 0 [] (mkChatContextManager 6000 ∅).

(** ** Observations and drivers used by the statements *)

(** The session stored under an id, if any. *)
Definition stored (w : World) (sid : string) : option ChatSession :=
  sessions (context_manager w) !! sid.

(** The messages stored under an id; none for an unknown id. *)
Definition prev_messages (w : World) (sid : string) : list ChatMessage :=
  match stored w sid with
  | Some s => messages s
  | None => []
  end.

Definition limit_of (w : World) : Z :=
  mgr_max_context_tokens (context_manager w).

(** A [ChatContextManager(max_context_tokens=limit)] just constructed. *)
Definition fresh_manager (limit : Z) : World :=
  mkWorld 0 0 [] (mkChatContextManager limit ∅).

(** The public operations of [ChatContextManager], and a sequence of them
    run in order. *)
Inductive ManagerCall :=
| CreateSession (session_id : option string)
| AddMessage (session_id : string) (message : ChatMessage)
| GetContextMessages (session_id : string)
| CleanupOldSessions (hours : Z).

(** The operations reachable through [ChatService] and the routes of
    [chat_api.py]: a turn, the history, clearing a session, the
    session-creation route and the background cleanup. *)
Inductive ServiceCall :=
| SendMessage (session_id user_message mode : string)
    (custom_system_prompt : option string)
| GetChatHistory (session_id : string)
| ClearSession (session_id : string)
| NewSession
| Cleanup (hours : Z).

Section Drivers.

Variable clock : nat -> Z.
Variable uuid_src : nat -> string.
Variable remote : nat -> Completion -> HttpOutcome.

Definition manager_call (c : ManagerCall) : M unit :=
  match c with
  | CreateSession sid => create_session clock uuid_src sid;; ret tt
  | AddMessage sid m => add_message clock uuid_src sid m
  | GetContextMessages sid => get_context_messages sid;; ret tt
  | CleanupOldSessions hours => cleanup_old_sessions clock hours;; ret tt
  end.

Fixpoint manager_calls (cs : list ManagerCall) : M unit :=
  match cs with
  | [] => ret tt
  | c :: cs' => manager_call c;; manager_calls cs'
  end.

Definition service_call (c : ServiceCall) : M unit :=
  match c with
  | SendMessage sid text mode custom =>
      send_message clock uuid_src remote sid text mode custom;; ret tt
  | GetChatHistory sid => get_chat_history sid;; ret tt
  | ClearSession sid => clear_session sid;; ret tt
  | NewSession => create_session clock uuid_src None;; ret tt
  | Cleanup hours => cleanup_old_sessions clock hours;; ret tt
  end.

Fixpoint service_calls (cs : list ServiceCall) : M unit :=
  match cs with
  | [] => ret tt
  | c :: cs' => service_call c;; service_calls cs'
  end.

(** The first part of the body of [send_message], up to and including the
    storing of the user message; it returns that message. *)
Definition user_phase (session_id user_message : string) : M ChatMessage :=
  do known <- has_session session_id;
  (if known then ret tt else create_session clock uuid_src (Some session_id);; ret tt);;
  do user_msg <- new_message clock uuid_src "user" user_message None
                   (_estimate_tokens user_message);
  add_message clock uuid_src session_id user_msg;;
  ret user_msg.

(** The rest of the body of [send_message]: from the reading of the context
    to the returned dictionary. *)
Definition model_phase (session_id user_message mode : string)
    (custom_system_prompt : option string) : M TurnResult :=
do context_messages <- get_context_messages session_id;
let template := default fast_code_template (prompt_templates !! mode) in
let system_prompt := Py.or_else custom_system_prompt (tpl_system template) in
let context_messages := outbound system_prompt context_messages in
do reply <-
  (if tpl_thinking template
   then do r <- thinking_chat remote user_message (Some system_prompt);
        ret (fst r, Some (snd r))
   else do r <- simple_chat remote user_message (Some system_prompt);
        ret (r, None));
let response_content := fst reply in
let thinking := snd reply in
do assistant_msg <- new_message clock uuid_src "assistant" response_content
                      thinking (_estimate_tokens response_content);
add_message clock uuid_src session_id assistant_msg;;
ret (Success (mkSuccessResponse (id assistant_msg) response_content thinking
                mode session_id (length context_messages)
                (tokens assistant_msg))).

End Drivers.

(** The template and the system prompt resolved by [send_message]. *)
Definition template_of (mode : string) : Template :=
  default fast_code_template (prompt_templates !! mode).

Definition system_prompt_of (mode : string) (custom : option string) : string :=
  Py.or_else custom (tpl_system (template_of mode)).

(** The one request a turn sends: what [simple_chat] or [thinking_chat]
    builds from the user message and the system prompt. *)
Definition request_of (user_message mode : string) (custom : option string)
  : Completion :=
  mkCompletion
    [mkApiMessage "system" (system_prompt_of mode custom);
     mkApiMessage "user" user_message]
    (if tpl_thinking (template_of mode) then 3 # 10 else default_temperature)
    default_max_tokens
    (tpl_thinking (template_of mode)).

(** The reasoning trace a turn returns for a given answer of the endpoint. *)
Definition trace_of (mode : string) (trace : option string) : option string :=
  if tpl_thinking (template_of mode)
  then Some (Py.or_else trace "No thinking process available")
  else None.

(** The program state once a request has been recorded. *)
Definition logged (w : World) (call : Completion) : World :=
  mkWorld (clock_reads w) (uuid_draws w) (requests w ++ [call])%list
    (context_manager w).

(** The projection done by [get_context_messages]. *)
Definition to_api (msg : ChatMessage) : ApiMessage :=
  mkApiMessage (role msg) (content msg).

(** Whether an answer of the endpoint makes [chat_completion] raise. *)
Definition fails (o : HttpOutcome) : bool :=
  match o with
  | HttpOk _ _ => false
  | _ => true
  end.

Definition user_or_assistant (msg : ChatMessage) : Prop :=
  role msg = "user" \/ role msg = "assistant".

(** ** Concrete environments and runs *)

(** A clock that advances by one at each reading, and ids [id-0], [id-1], ... *)
Definition tick (n : nat) : Z := Z.of_nat n.
Definition ids (n : nat) : string := "id-" ++ pretty n.

(** An endpoint that always answers ["Sure."]. *)
Definition always_ok (n : nat) (c : Completion) : HttpOutcome :=
  HttpOk "Sure." None.

(** An endpoint that always times out. *)
Definition always_timeout (n : nat) (c : Completion) : HttpOutcome :=
  HttpTimeout.

(** An endpoint answering its first call with 8000 characters and timing out
    afterwards. *)
Definition long_then_timeout (n : nat) (c : Completion) : HttpOutcome :=
  match n with
  | O => HttpOk (Py.mul "y" 8000) None
  | S _ => HttpTimeout
  end.

(** A store holding one session ["s"] with one message. *)
Definition hello : ChatMessage := mkChatMessage "m1" "user" "Hello" None 0 1.

Definition one_session : World :=
  snd (add_message tick ids "s" hello initial_world).

(** A first successful turn on session ["s"]. *)
Definition after_first_turn : World :=
  snd (send_message tick ids always_ok "s" "My name is John" "fast_code" None
         initial_world).

(** A first successful turn with a user message of 10000 characters and an
    answer of 8000. *)
Definition after_long_turn : World :=
  snd (send_message tick ids long_then_timeout "s" (Py.mul "x" 10000) "fast_code"
         None initial_world).

(** ** Construction of the client *)

(** The fields of a constructed [DeepSeekClient]; [headers] is the
    dictionary with the two entries [Authorization] and [Content-Type]. *)
Record DeepSeekClient := mkDeepSeekClient {
  api_key : string;
  base_url : string;
  model : string;
  authorization : string;
  content_type : string
}.

(** [DeepSeekClient.__init__]: the key is the argument, or else the
    environment variable [SILICONFLOW_KEY]; without a key a [ValueError] is
    raised. *)
Definition DeepSeekClient_init (api_key SILICONFLOW_KEY : option string)
  : outcome DeepSeekClient :=
  let key :=
    match api_key with
    | Some (String c r) => Some (String c r)
    | _ => SILICONFLOW_KEY
    end in
  match key with
  | Some (String c r) =>
      Returns (mkDeepSeekClient (String c r) "https://api.siliconflow.cn/v1"
                 model_name ("Bearer " ++ String c r) "application/json")
  | _ => Raises "SILICONFLOW_KEY environment variable is required"
  end.

(** ** The routes that call the client and the service *)

(** What a route hands back: the value it returns, or the [HTTPException]
    it raises. *)
Inductive reply (A : Type) : Type :=
| Replies (a : A)
| HTTPException (status_code : Z) (detail : string).
Arguments Replies {A} a.
Arguments HTTPException {A} status_code detail.

(** [fastapi_server.py]: the request and response models of [/chat]. *)
Record ServerChatRequest := mkServerChatRequest {
  srv_message : string;
  srv_system_prompt : option string;
  srv_enable_thinking : bool;
  srv_temperature : Q;
  srv_max_tokens : Z
}.

Record ServerChatResponse := mkServerChatResponse {
  srv_response : string;
  srv_thinking : option string;
  srv_model : string;
  srv_usage_thinking_mode : bool
}.


Record ChatHistoryResponse := mkChatHistoryResponse {
  history_session_id : string;
  history_messages : list ChatMessage;
  total_messages : nat
}.

Section Routes.

Variable clock : nat -> Z.
Variable uuid_src : nat -> string.
Variable remote : nat -> Completion -> HttpOutcome.

(** [fastapi_server.py], the module-level client: [None] when the
    constructor raised its [ValueError]. *)
Definition server_client (SILICONFLOW_KEY : option string) : option DeepSeekClient :=
  match DeepSeekClient_init None SILICONFLOW_KEY with
  | Returns client => Some client
  | Raises _ => None
  end.

(** [fastapi_server.chat_completion] *)
Definition server_chat_completion (deepseek : option DeepSeekClient)
    (request : ServerChatRequest) : M (reply ServerChatResponse) :=
  match deepseek with
  | None =>
      ret (HTTPException 500
             "DeepSeek client not initialized. Check SILICONFLOW_KEY environment variable")
  | Some client =>
      try_except
        (if srv_enable_thinking request
         then
           (* Use thinking mode *)
           do r <- thinking_chat remote (srv_message request)
                     (srv_system_prompt request);
           ret (Replies (mkServerChatResponse (fst r) (Some (snd r)) (model client)
                           true))
         else
           (* Use normal mode *)
           do response_text <- simple_chat remote (srv_message request)
                                 (srv_system_prompt request);
           ret (Replies (mkServerChatResponse response_text None (model client)
                           false)))
        (fun error_msg =>
           (* Handle specific error types *)
           if Py.contains "Rate limited" error_msg
           then ret (HTTPException 429 error_msg)
           else if Py.contains "Invalid API key" error_msg
           then ret (HTTPException 401 error_msg)
           else if Py.contains "timed out" error_msg
           then ret (HTTPException 504 error_msg)
           else ret (HTTPException 500 ("DeepSeek API error: " ++ error_msg)))
  end.


(** [chat_api.cleanup_old_sessions], the background task. *)
Definition api_cleanup_old_sessions (chat_service : bool) : M unit :=
  if chat_service
  then cleanup_old_sessions clock 24;; ret tt
  else ret tt.

(** [chat_api.get_chat_history] *)
Definition api_get_chat_history (chat_service : bool) (session_id : string)
  : M (reply ChatHistoryResponse) :=
  if negb chat_service
  then ret (HTTPException 500 "Chat service not available")
  else
    try_except
      (do messages <- get_chat_history session_id;
       ret (Replies (mkChatHistoryResponse session_id messages (length messages))))
      (fun e => ret (HTTPException 500 ("Failed to get history: " ++ e))).

(** [chat_api.create_chat_session]: the new id, with [created=True]. *)
Definition api_create_chat_session (chat_service : bool) : M (reply (string * bool)) :=
  if negb chat_service
  then ret (HTTPException 500 "Chat service not available")
  else
    do session_id <- create_session clock uuid_src None;
    ret (Replies (session_id, true)).

(** [chat_api.clear_chat_session]: the confirmation text, or 404. *)
Definition api_clear_chat_session (chat_service : bool) (session_id : string)
  : M (reply string) :=
  if negb chat_service
  then ret (HTTPException 500 "Chat service not available")
  else
    do cleared <- clear_session session_id;
    if cleared
    then ret (Replies ("Session " ++ session_id ++ " cleared successfully"))
    else ret (HTTPException 404 "Session not found").

End Routes.


(** What every session stored by the service satisfies, under the manager's
    limit: it carries the id it is stored under and that limit, the [tokens]
    field of each of its messages is the estimate of its content, and its
    total estimate is within the limit unless it holds at most one message. *)
Definition well_kept (limit : Z) (k : string) (s : ChatSession) : Prop :=
  session_id s = k /\
  max_context_tokens s = limit /\
  Forall (fun m => tokens m = _estimate_tokens (content m)) (messages s) /\
  (count_tokens (messages s) <= limit \/ (length (messages s) <= 1)%nat).

(** The sum of the [tokens] fields of a list of messages. *)
Definition tokens_total (msgs : list ChatMessage) : Z :=
  foldr (fun m acc => tokens m + acc) 0 msgs.

(** A returned dictionary with its [mode] entry replaced. *)
Definition with_mode (mode : string) (r : TurnResult) : TurnResult :=
  match r with
  | Success r =>
      Success (mkSuccessResponse (message_id r) (response r) (res_thinking r) mode
                 (res_session_id r) (context_length r) (tokens_used r))
  | Failure r =>
      Failure (mkErrorResponse (error r) (err_session_id r) mode (error_type r)
                 (retry_after r))
  end.



(** The [session_id] entry of a returned dictionary. *)
Definition result_session_id (r : TurnResult) : string :=
  match r with
  | Success r => res_session_id r
  | Failure r => err_session_id r
  end.

(** * Properties *)

(** ** The eviction loop *)

Lemma count_tokens_nil : count_tokens [] = 0.
Proof. reflexivity. Qed.

(** [count_tokens] is the plain sum of the estimates. *)
Lemma count_tokens_cons m l :
  count_tokens (m :: l) = _estimate_tokens (content m) + count_tokens l.
Proof.
  unfold count_tokens. simpl. rewrite fold_left_app. simpl. lia.
Qed.

Lemma truncate_loop_step limit total m m2 rest :
  truncate_loop limit total (m :: m2 :: rest)
  = if total >? limit
    then truncate_loop limit (total - _estimate_tokens (content m)) (m2 :: rest)
    else m :: m2 :: rest.
Proof. reflexivity. Qed.

(** When the loop stops, the total is within the limit or one message is
    left; the running total is the sum over the remaining list throughout. *)
Lemma truncate_loop_bound limit msgs :
  forall total, total = count_tokens msgs -> msgs <> [] ->
  count_tokens (truncate_loop limit total msgs) <= limit
  \/ length (truncate_loop limit total msgs) = 1%nat.
Proof.
  induction msgs as [|m rest IH]; intros total Ht Hne; [done|].
  destruct rest as [|m2 rest'].
  - by right.
  - rewrite truncate_loop_step. destruct (total >? limit) eqn:E.
    + apply IH; [|done]. rewrite Ht, count_tokens_cons. lia.
    + left. lia.
Qed.

(** The loop removes a prefix, and never the whole of a non-empty list. *)
Lemma truncate_loop_suffix limit msgs :
  forall total, exists k,
    (k <= pred (length msgs))%nat /\ truncate_loop limit total msgs = drop k msgs.
Proof.
  induction msgs as [|m rest IH]; intros total.
  - exists 0%nat. split; [simpl; lia | done].
  - destruct rest as [|m2 rest'].
    + exists 0%nat. split; [simpl; lia | done].
    + rewrite truncate_loop_step. destruct (total >? limit).
      * destruct (IH (total - _estimate_tokens (content m))) as (k & Hk & E).
        exists (S k). split; [simpl in *; lia | exact E].
      * exists 0%nat. split; [simpl; lia | done].
Qed.

(** Nothing is removed exactly when the total is within the limit or at most
    one message is stored. *)
Lemma truncate_loop_keeps_all limit msgs total :
  truncate_loop limit total msgs = msgs
  <-> (total <= limit \/ (length msgs <= 1)%nat).
Proof.
  destruct msgs as [|m [|m2 rest]].
  - simpl. split; [right; lia | done].
  - simpl. split; [right; lia | done].
  - rewrite truncate_loop_step. destruct (total >? limit) eqn:E.
    + split.
      * intros H. exfalso.
        destruct (truncate_loop_suffix limit (m2 :: rest)
                    (total - _estimate_tokens (content m))) as (k & _ & Hk).
        rewrite Hk in H. apply (f_equal length) in H.
        rewrite length_drop in H. simpl in H. lia.
      * intros [H|H]; [lia | simpl in H; lia].
    + split; [left; lia | done].
Qed.

Lemma truncate_bound limit msgs :
  msgs <> [] ->
  count_tokens (truncate limit msgs) <= limit
  \/ length (truncate limit msgs) = 1%nat.
Proof. intros H. by apply truncate_loop_bound. Qed.

Lemma truncate_suffix limit msgs :
  exists k, (k <= pred (length msgs))%nat /\ truncate limit msgs = drop k msgs.
Proof. apply truncate_loop_suffix. Qed.

Lemma truncate_last limit l m : last (truncate limit (l ++ [m])) = Some m.
Proof.
  destruct (truncate_suffix limit (l ++ [m])) as (k & Hk & ->).
  rewrite length_app in Hk. simpl in Hk.
  rewrite drop_app_le by lia. apply last_snoc.
Qed.

Lemma truncate_Forall (P : ChatMessage -> Prop) limit msgs :
  Forall P msgs -> Forall P (truncate limit msgs).
Proof.
  intros H. destruct (truncate_suffix limit msgs) as (k & _ & ->).
  by apply Forall_drop.
Qed.

(** ** [ChatContextManager]: what one call does to the store *)

Section ManagerFacts.

Variable clock : nat -> Z.
Variable uuid_src : nat -> string.

Lemma create_session_explicit sid w :
  create_session clock uuid_src (Some sid) w
  = (Returns sid,
     mkWorld (S (S (clock_reads w))) (uuid_draws w) (requests w)
       (mkChatContextManager (limit_of w)
          (<[sid := mkChatSession sid [] (clock (clock_reads w))
                      (clock (S (clock_reads w))) (limit_of w)]>
             (sessions (context_manager w))))).
Proof. reflexivity. Qed.

Lemma create_session_fresh w :
  create_session clock uuid_src None w
  = (Returns (uuid_src (uuid_draws w)),
     mkWorld (S (S (clock_reads w))) (S (uuid_draws w)) (requests w)
       (mkChatContextManager (limit_of w)
          (<[uuid_src (uuid_draws w) :=
               mkChatSession (uuid_src (uuid_draws w)) [] (clock (clock_reads w))
                 (clock (S (clock_reads w))) (limit_of w)]>
             (sessions (context_manager w))))).
Proof. reflexivity. Qed.

Lemma add_message_known sid m w s :
  stored w sid = Some s ->
  add_message clock uuid_src sid m w
  = (Returns tt,
     mkWorld (S (clock_reads w)) (uuid_draws w) (requests w)
       (mkChatContextManager (limit_of w)
          (<[sid := mkChatSession (session_id s)
                      (truncate (limit_of w) (messages s ++ [m]))
                      (created_at s) (clock (clock_reads w))
                      (max_context_tokens s)]>
             (sessions (context_manager w))))).
Proof.
  unfold stored. intros Hs.
  unfold add_message, has_session, lookup_session, _truncate_context, bind,
    get_manager, update_sessions, now, ret. cbn.
  rewrite Hs. cbn. rewrite Hs. cbn.
  rewrite !lookup_alter_eq, Hs. cbn.
  do 2 f_equal. unfold limit_of. f_equal.
  apply map_eq. intros k. destruct (decide (k = sid)) as [->|Hne].
  - rewrite !lookup_alter_eq, lookup_insert_eq, Hs. reflexivity.
  - rewrite !lookup_alter_ne, lookup_insert_ne by done. reflexivity.
Qed.

Lemma add_message_unknown sid m w :
  stored w sid = None ->
  add_message clock uuid_src sid m w
  = (Returns tt,
     mkWorld (S (S (S (clock_reads w)))) (uuid_draws w) (requests w)
       (mkChatContextManager (limit_of w)
          (<[sid := mkChatSession sid (truncate (limit_of w) [m])
                      (clock (clock_reads w)) (clock (S (S (clock_reads w))))
                      (limit_of w)]>
             (sessions (context_manager w))))).
Proof.
  unfold stored. intros Hs.
  unfold add_message, has_session, lookup_session, _truncate_context, bind,
    get_manager, update_sessions, now, ret, create_session. cbn.
  rewrite Hs. cbn. rewrite lookup_insert_eq. cbn.
  rewrite !lookup_alter_eq, lookup_insert_eq. cbn.
  do 2 f_equal. unfold limit_of. f_equal.
  apply map_eq. intros k. destruct (decide (k = sid)) as [->|Hne].
  - rewrite !lookup_alter_eq, !lookup_insert_eq. reflexivity.
  - rewrite !lookup_alter_ne, !lookup_insert_ne by done. reflexivity.
Qed.

(** One statement for both cases: [add_message] returns, the session then
    holds the truncation of its former messages followed by the new one,
    and nothing else of the program state changes but the clock. *)
Lemma add_message_spec sid m w :
  exists w' s',
    add_message clock uuid_src sid m w = (Returns tt, w') /\
    stored w' sid = Some s' /\
    messages s' = truncate (limit_of w) (prev_messages w sid ++ [m]) /\
    max_context_tokens s'
      = match stored w sid with
        | Some s => max_context_tokens s
        | None => limit_of w
        end /\
    limit_of w' = limit_of w /\
    requests w' = requests w /\
    uuid_draws w' = uuid_draws w /\
    (forall k, k <> sid -> stored w' k = stored w k).
Proof.
  unfold prev_messages. destruct (stored w sid) as [s|] eqn:Hs.
  - rewrite (add_message_known sid m w s Hs).
    eexists _, _. split; [reflexivity|].
    unfold stored at 1. cbn. rewrite lookup_insert_eq.
    split; [reflexivity|]. cbn. repeat split.
    intros k Hk. unfold stored. cbn. by rewrite lookup_insert_ne.
  - rewrite (add_message_unknown sid m w Hs).
    eexists _, _. split; [reflexivity|].
    unfold stored at 1. cbn. rewrite lookup_insert_eq.
    split; [reflexivity|]. cbn. repeat split.
    intros k Hk. unfold stored. cbn. by rewrite lookup_insert_ne.
Qed.

Lemma get_context_messages_explicit sid w :
  get_context_messages sid w
  = (Returns (match stored w sid with
              | None => []
              | Some s => map to_api (messages s)
              end), w).
Proof.
  unfold get_context_messages, bind, get_manager, stored. cbn.
  destruct (sessions (context_manager w) !! sid); reflexivity.
Qed.

Lemma lookup_foldr_delete (l : list (string * ChatSession))
    (m : gmap string ChatSession) k s :
  foldr (fun kv m => delete (fst kv) m) m l !! k = Some s -> m !! k = Some s.
Proof.
  induction l as [|kv l IH]; simpl; [done|].
  intros H. apply lookup_delete_Some in H. apply IH. tauto.
Qed.

(** The cleanup returns and only removes sessions. *)
Lemma cleanup_old_sessions_spec hours w :
  exists n w',
    cleanup_old_sessions clock hours w = (Returns n, w') /\
    limit_of w' = limit_of w /\
    (forall k s, stored w' k = Some s -> stored w k = Some s).
Proof.
  unfold cleanup_old_sessions, bind, now, get_manager, update_sessions, ret.
  cbn. eexists _, _. split; [reflexivity|]. split; [reflexivity|].
  intros k s. unfold stored. cbn. apply lookup_foldr_delete.
Qed.

End ManagerFacts.

(** ** Sequences of manager calls *)

Section ManagerRuns.

Variable clock : nat -> Z.
Variable uuid_src : nat -> string.

(** Every stored session carries the limit of the manager that made it:
    this is kept by each call, and each call returns. *)
Lemma manager_call_spec c w :
  (forall k s, stored w k = Some s -> max_context_tokens s = limit_of w) ->
  exists w',
    manager_call clock uuid_src c w = (Returns tt, w') /\
    limit_of w' = limit_of w /\
    (forall k s, stored w' k = Some s -> max_context_tokens s = limit_of w').
Proof.
  intros Inv. destruct c as [[sid|] | sid m | sid | hours]; simpl.
  - unfold bind. rewrite create_session_explicit.
    eexists. split; [reflexivity|]. split; [reflexivity|].
    intros k s. unfold stored. cbn. intros H.
    apply lookup_insert_Some in H as [[_ <-]|[_ H]]; [reflexivity|].
    by apply (Inv k).
  - unfold bind. rewrite create_session_fresh.
    eexists. split; [reflexivity|]. split; [reflexivity|].
    intros k s. unfold stored. cbn. intros H.
    apply lookup_insert_Some in H as [[_ <-]|[_ H]]; [reflexivity|].
    by apply (Inv k).
  - destruct (add_message_spec clock uuid_src sid m w)
      as (w' & s' & E & Hs' & _ & Hmax & Hlim & _ & _ & Hother).
    exists w'. split; [exact E|]. split; [exact Hlim|].
    intros k s Hk. destruct (decide (k = sid)) as [->|Hne].
    + rewrite Hs' in Hk. injection Hk as <-. rewrite Hmax, Hlim.
      destruct (stored w sid) as [s0|] eqn:E0; [by apply (Inv sid)|done].
    + rewrite Hother in Hk by done. rewrite Hlim. by apply (Inv k).
  - unfold bind. rewrite get_context_messages_explicit.
    exists w. by repeat split.
  - destruct (cleanup_old_sessions_spec clock hours w) as (n & w' & E & Hlim & Hsub).
    unfold bind. rewrite E. exists w'. split; [reflexivity|]. split; [exact Hlim|].
    intros k s Hk. rewrite Hlim. apply (Inv k). by apply Hsub.
Qed.

Lemma manager_calls_spec cs : forall w,
  (forall k s, stored w k = Some s -> max_context_tokens s = limit_of w) ->
  exists w',
    manager_calls clock uuid_src cs w = (Returns tt, w') /\
    limit_of w' = limit_of w /\
    (forall k s, stored w' k = Some s -> max_context_tokens s = limit_of w').
Proof.
  induction cs as [|c cs IH]; intros w Inv.
  - exists w. by repeat split.
  - destruct (manager_call_spec c w Inv) as (w1 & E1 & L1 & Inv1).
    destruct (IH w1 Inv1) as (w2 & E2 & L2 & Inv2).
    exists w2. simpl. unfold bind. rewrite E1.
    split; [exact E2|]. split; [congruence | exact Inv2].
Qed.

Lemma manager_calls_app cs1 cs2 w w1 :
  manager_calls clock uuid_src cs1 w = (Returns tt, w1) ->
  manager_calls clock uuid_src (cs1 ++ cs2) w
  = manager_calls clock uuid_src cs2 w1.
Proof.
  revert w. induction cs1 as [|c cs1 IH]; intros w; simpl.
  - unfold ret. by intros [= ->].
  - unfold bind. destruct (manager_call clock uuid_src c w) as [[[]|e] w0].
    + apply IH.
    + discriminate.
Qed.

End ManagerRuns.

(** ** The context store: claims about appends, eviction and reads *)

(** C1. Eviction invariant: in any sequence of manager calls on a manager
    built with any limit, right after an append to a session (and the
    eviction pass it runs) the call has returned, the session exists, and
    the sum of the estimates of its stored messages is at most its token
    budget, or it holds exactly one message. *)
Theorem eviction_invariant (clock : nat -> Z) (uuid_src : nat -> string)
    (limit : Z) (calls : list ManagerCall) (sid : string) (m : ChatMessage) :
  exists w s,
    manager_calls clock uuid_src (calls ++ [AddMessage sid m]) (fresh_manager limit)
      = (Returns tt, w) /\
    stored w sid = Some s /\
    (count_tokens (messages s) <= max_context_tokens s
     \/ length (messages s) = 1%nat).
Proof.
  destruct (manager_calls_spec clock uuid_src calls (fresh_manager limit))
    as (w1 & E1 & L1 & Inv1).
  { intros k s. unfold stored. cbn. by rewrite lookup_empty. }
  rewrite (manager_calls_app clock uuid_src calls _ _ _ E1). simpl.
  destruct (add_message_spec clock uuid_src sid m w1)
    as (w' & s' & E & Hs' & Hmsgs & Hmax & _).
  exists w', s'. unfold bind, ret. rewrite E.
  split; [reflexivity|]. split; [exact Hs'|].
  assert (max_context_tokens s' = limit_of w1) as ->.
  { rewrite Hmax. destruct (stored w1 sid) eqn:E0; [by apply (Inv1 sid)|done]. }
  rewrite Hmsgs. apply truncate_bound.
  intros H. by apply app_eq_nil in H as [_ ?].
Qed.

(** C6. Newest survives: an append returns, and afterwards the appended
    message is the last message of the session, whatever its size; the
    stored messages are the former ones followed by the new one, minus a
    prefix made of former messages only; so on an empty or unknown session
    the session holds exactly the appended message. *)
Theorem newest_survives (clock : nat -> Z) (uuid_src : nat -> string)
    (w : World) (sid : string) (m : ChatMessage) :
  exists w' s' k,
    add_message clock uuid_src sid m w = (Returns tt, w') /\
    stored w' sid = Some s' /\
    last (messages s') = Some m /\
    (k <= length (prev_messages w sid))%nat /\
    messages s' = drop k (prev_messages w sid ++ [m]) /\
    match prev_messages w sid with
    | [] => messages s' = [m]
    | _ :: _ => True
    end.
Proof.
  destruct (add_message_spec clock uuid_src sid m w)
    as (w' & s' & E & Hs' & Hmsgs & _).
  destruct (truncate_suffix (limit_of w) (prev_messages w sid ++ [m]))
    as (k & Hk & Hdrop).
  exists w', s', k. split; [exact E|]. split; [exact Hs'|].
  rewrite Hmsgs. split; [apply truncate_last|].
  split; [rewrite length_app in Hk; simpl in Hk; lia|].
  split; [exact Hdrop|].
  destruct (prev_messages w sid); [reflexivity | exact I].
Qed.

(** C9. [get_context_messages] returns, without changing anything, the
    role and content of each stored message of the session in stored
    order, and the empty list for an unknown id; the eviction pass only
    removes a prefix of the stored list, and an append stores the former
    messages followed by the new one, minus such a prefix. *)
Theorem context_messages_in_order (clock : nat -> Z) (uuid_src : nat -> string)
    (w : World) (sid : string) :
  get_context_messages sid w
    = (Returns (match stored w sid with
                | None => []
                | Some s => map (fun msg => mkApiMessage (role msg) (content msg))
                              (messages s)
                end), w) /\
  (forall limit msgs, exists k, truncate limit msgs = drop k msgs) /\
  (forall sid' m, exists w' s' k,
      add_message clock uuid_src sid' m w = (Returns tt, w') /\
      stored w' sid' = Some s' /\
      messages s' = drop k (prev_messages w sid' ++ [m])).
Proof.
  split; [apply get_context_messages_explicit|]. split.
  - intros limit msgs. destruct (truncate_suffix limit msgs) as (k & _ & E).
    by exists k.
  - intros sid' m.
    destruct (add_message_spec clock uuid_src sid' m w)
      as (w' & s' & E & Hs' & Hmsgs & _).
    destruct (truncate_suffix (limit_of w) (prev_messages w sid' ++ [m]))
      as (k & _ & Hdrop).
    exists w', s', k. rewrite Hmsgs. by repeat split.
Qed.

(** ** [ChatService.send_message], phase by phase *)

Section ServiceFacts.

Variable clock : nat -> Z.
Variable uuid_src : nat -> string.
Variable remote : nat -> Completion -> HttpOutcome.

(** The body of [send_message] is its user phase followed by its model
    phase, under the handler. *)
Lemma send_message_phases sid text mode custom w :
  send_message clock uuid_src remote sid text mode custom w
  = try_except
      (user_phase clock uuid_src sid text;;
       model_phase clock uuid_src remote sid text mode custom)
      (fun e => ret (Failure (error_response e sid mode))) w.
Proof.
  unfold send_message, user_phase, model_phase, try_except, bind.
  destruct (has_session sid w) as [[known|e] w0]; [|reflexivity].
  destruct ((if known then ret tt
             else (create_session clock uuid_src (Some sid);; ret tt)) w0)
    as [[[]|e] w1] eqn:E1.
  - unfold bind in E1. rewrite E1.
    destruct (new_message clock uuid_src "user" text None (_estimate_tokens text) w1)
      as [[u|e] w2]; [|reflexivity].
    destruct (add_message clock uuid_src sid u w2) as [[[]|e] w3]; reflexivity.
  - unfold bind in E1. rewrite E1. reflexivity.
Qed.

(** The user phase returns the user message it built and stored; the
    session then holds the truncation of its former messages followed by
    that message. *)
Lemma user_phase_spec sid text w :
  exists w1 s1 u,
    user_phase clock uuid_src sid text w = (Returns u, w1) /\
    id u = uuid_src (uuid_draws w) /\
    role u = "user" /\
    content u = text /\
    tokens u = _estimate_tokens text /\
    stored w1 sid = Some s1 /\
    messages s1 = truncate (limit_of w) (prev_messages w sid ++ [u]) /\
    limit_of w1 = limit_of w /\
    requests w1 = requests w /\
    (forall k, k <> sid -> stored w1 k = stored w k).
Proof.
  unfold user_phase, has_session, bind at 1 2.
  cbn -[add_message new_message create_session].
  unfold prev_messages. fold (stored w sid).
  destruct (stored w sid) as [s|] eqn:Hs;
    cbn -[add_message new_message create_session].
  - unfold bind. cbn -[add_message].
    match goal with
    | |- context [add_message _ _ _ ?u ?w0] =>
        rewrite (add_message_known clock uuid_src sid u w0 s Hs)
    end.
    cbn. eexists _, _, _. split; [reflexivity|]. cbn.
    do 4 (split; [reflexivity|]).
    unfold stored at 1. cbn. rewrite lookup_insert_eq.
    split; [reflexivity|]. cbn. repeat split.
    intros k Hk. unfold stored. cbn. by rewrite lookup_insert_ne.
  - unfold bind. cbn -[add_message].
    match goal with
    | |- context [add_message _ _ _ ?u ?w0] =>
        rewrite (add_message_known clock uuid_src sid u w0
                   (mkChatSession sid [] (clock (clock_reads w))
                      (clock (S (clock_reads w))) (limit_of w)))
    end.
    2:{ unfold stored. cbn. apply lookup_insert_eq. }
    cbn. eexists _, _, _. split; [reflexivity|]. cbn.
    do 4 (split; [reflexivity|]).
    unfold stored at 1. cbn. rewrite lookup_insert_eq.
    split; [reflexivity|]. cbn. repeat split.
    intros k Hk. unfold stored. cbn. by rewrite !lookup_insert_ne.
Qed.

(** Whatever the mode, the resolved system prompt is not empty. *)
Lemma template_of_cases mode :
  template_of mode = fast_code_template
  \/ template_of mode = mkTemplate deep_reasoning_system (2 # 10) true
  \/ template_of mode = mkTemplate code_review_system (1 # 10) true.
Proof.
  unfold template_of. destruct (prompt_templates !! mode) as [t|] eqn:E;
    [|by left].
  unfold prompt_templates in E.
  apply lookup_insert_Some in E as [[_ <-]|[_ E]]; [by left|].
  apply lookup_insert_Some in E as [[_ <-]|[_ E]]; [right; by left|].
  apply lookup_insert_Some in E as [[_ <-]|[_ E]]; [right; by right|].
  by rewrite lookup_empty in E.
Qed.

Lemma system_prompt_nonempty mode custom :
  exists c r, system_prompt_of mode custom = String c r.
Proof.
  unfold system_prompt_of. destruct custom as [[|c r]|]; simpl.
  2: by eexists _, _.
  all: destruct (template_of_cases mode) as [-> | [-> | ->]];
    eexists _, _; reflexivity.
Qed.

(** The model phase sends [request_of]; when the endpoint fails, it raises
    and the store is as the user phase left it. *)
Lemma model_phase_fails sid text mode custom w :
  fails (remote (length (requests w)) (request_of text mode custom)) = true ->
  exists e,
    model_phase clock uuid_src remote sid text mode custom w
    = (Raises e, logged w (request_of text mode custom)).
Proof.
  intros Hf. unfold model_phase, bind. rewrite get_context_messages_explicit.
  fold (template_of mode). fold (system_prompt_of mode custom).
  unfold request_of in *.
  destruct (system_prompt_nonempty mode custom) as (c & r & Hsp).
  destruct (tpl_thinking (template_of mode)).
  - unfold thinking_chat, bind, chat_completion. rewrite Hsp in *. cbn in *.
    destruct (remote _ _); try discriminate; eexists; reflexivity.
  - unfold simple_chat, bind, chat_completion. rewrite Hsp in *. cbn in *.
    destruct (remote _ _); try discriminate; eexists; reflexivity.
Qed.

(** When the endpoint answers, the model phase returns the success
    dictionary and the assistant message is stored like any other. *)
Lemma model_phase_ok sid text mode custom w answer trace :
  remote (length (requests w)) (request_of text mode custom) = HttpOk answer trace ->
  exists w' s' a,
    model_phase clock uuid_src remote sid text mode custom w
    = (Returns (Success (mkSuccessResponse (id a) answer (trace_of mode trace)
                           mode sid
                           (length (outbound (system_prompt_of mode custom)
                                      (map to_api (prev_messages w sid))))
                           (tokens a))), w') /\
    a = mkChatMessage (uuid_src (uuid_draws w)) "assistant" answer
          (trace_of mode trace) (clock (clock_reads w)) (_estimate_tokens answer) /\
    stored w' sid = Some s' /\
    messages s' = truncate (limit_of w) (prev_messages w sid ++ [a]) /\
    limit_of w' = limit_of w /\
    requests w' = (requests w ++ [request_of text mode custom])%list /\
    (forall k, k <> sid -> stored w' k = stored w k).
Proof.
  intros Hok.
  assert (exists th,
    (if tpl_thinking (template_of mode)
     then do r <- thinking_chat remote text (Some (system_prompt_of mode custom));
          ret (fst r, Some (snd r))
     else do r <- simple_chat remote text (Some (system_prompt_of mode custom));
          ret (r, None)) w
    = (Returns (answer, th), logged w (request_of text mode custom))
    /\ th = trace_of mode trace) as (th & Hcall & ->).
  { unfold request_of, trace_of in *.
    destruct (system_prompt_nonempty mode custom) as (c & r & Hsp).
    destruct (tpl_thinking (template_of mode)).
    - unfold thinking_chat, bind, chat_completion. rewrite Hsp in *. cbn in *.
      rewrite Hok. eexists. split; reflexivity.
    - unfold simple_chat, bind, chat_completion. rewrite Hsp in *. cbn in *.
      rewrite Hok. eexists. split; reflexivity. }
  assert (match stored w sid with
          | None => []
          | Some s => map to_api (messages s)
          end = map to_api (prev_messages w sid)) as Hctx.
  { unfold prev_messages. by destruct (stored w sid). }
  unfold model_phase, bind at 1. rewrite get_context_messages_explicit, Hctx.
  fold (template_of mode). fold (system_prompt_of mode custom).
  unfold bind at 1. rewrite Hcall.
  unfold bind at 1. cbn -[add_message new_message].
  unfold new_message at 1, bind at 2 3. cbn -[add_message].
  unfold bind.
  match goal with
  | |- context [add_message _ _ _ ?a ?w0] =>
      set (am := a);
      destruct (add_message_spec clock uuid_src sid am w0)
        as (w' & s' & E & Hs' & Hmsgs & _ & Hlim & Hreq & _ & Hother)
  end.
  rewrite E. exists w', s', am. split; [reflexivity|].
  split; [reflexivity|]. split; [exact Hs'|].
  split; [exact Hmsgs|]. split; [exact Hlim|]. split; [exact Hreq|].
  exact Hother.
Qed.

(** A whole turn. The user phase always completes; then either the endpoint
    fails and the turn returns a failure dictionary with the store as the
    user phase left it, or it answers and the assistant message is appended
    as well. *)
Lemma send_message_cases sid text mode custom w :
  exists w1 s1 u,
    user_phase clock uuid_src sid text w = (Returns u, w1) /\
    role u = "user" /\ content u = text /\
    stored w1 sid = Some s1 /\
    messages s1 = truncate (limit_of w) (prev_messages w sid ++ [u]) /\
    (forall k, k <> sid -> stored w1 k = stored w k) /\
    ((fails (remote (length (requests w)) (request_of text mode custom)) = true /\
      exists e,
        send_message clock uuid_src remote sid text mode custom w
        = (Returns (Failure (error_response e sid mode)),
           logged w1 (request_of text mode custom)))
     \/
     (exists answer trace w' s' a,
        remote (length (requests w)) (request_of text mode custom)
          = HttpOk answer trace /\
        send_message clock uuid_src remote sid text mode custom w
        = (Returns (Success (mkSuccessResponse (id a) answer (trace_of mode trace)
                               mode sid
                               (length (outbound (system_prompt_of mode custom)
                                          (map to_api (messages s1))))
                               (tokens a))), w') /\
        role a = "assistant" /\ content a = answer /\
        thinking a = trace_of mode trace /\
        tokens a = _estimate_tokens answer /\
        stored w' sid = Some s' /\
        messages s' = truncate (limit_of w) (messages s1 ++ [a]) /\
        requests w' = (requests w ++ [request_of text mode custom])%list /\
        (forall k, k <> sid -> stored w' k = stored w k))).
Proof.
  destruct (user_phase_spec sid text w)
    as (w1 & s1 & u & Eu & _ & Hrole & Hcont & _ & Hs1 & Hm1 & Hlim1 & Hreq1 & Ho1).
  exists w1, s1, u. do 6 (split; [assumption|]).
  rewrite send_message_phases. unfold try_except, bind. rewrite Eu.
  rewrite <- Hreq1.
  destruct (fails (remote (length (requests w1)) (request_of text mode custom)))
    eqn:Hf.
  - left. split; [reflexivity|].
    destruct (model_phase_fails sid text mode custom w1 Hf) as (e & ->).
    by exists e.
  - right.
    destruct (remote (length (requests w1)) (request_of text mode custom))
      as [| | | | | | |answer trace] eqn:Hr; try discriminate.
    destruct (model_phase_ok sid text mode custom w1 answer trace Hr)
      as (w' & s' & a & -> & Ha & Hs' & Hm' & _ & Hreq' & Ho').
    exists answer, trace, w', s', a.
    split; [reflexivity|].
    assert (prev_messages w1 sid = messages s1) as Hp
      by (unfold prev_messages; by rewrite Hs1).
    rewrite Hp in *. split; [reflexivity|].
    rewrite Ha at 1 2 3 4. cbn. do 4 (split; [reflexivity|]).
    split; [exact Hs'|]. split; [by rewrite Hm', Hlim1|].
    split; [by rewrite Hreq'|].
    intros k Hk. rewrite Ho' by done. by apply Ho1.
Qed.

End ServiceFacts.

(** ** Session creation *)

(** C3, as stated, fails: on the store holding session ["s"] with one
    message, created at time 0, [create_session("s")] returns ["s"] but
    leaves the session empty and created at time 3. *)
Lemma create_session_resets_existing :
  prev_messages one_session "s" = [hello] /\
  (created_at <$> stored one_session "s") = Some 0 /\
  fst (create_session tick ids (Some "s") one_session) = Returns "s" /\
  prev_messages (snd (create_session tick ids (Some "s") one_session)) "s" = [] /\
  (created_at <$> stored (snd (create_session tick ids (Some "s") one_session)) "s")
    = Some 3.
Proof. vm_compute. repeat split. Qed.

(** C3, amended. [create_session(s)] returns [s] and leaves every other
    session as it was, but the session stored under [s] afterwards is a new,
    empty one, with both timestamps read from the clock and the manager's
    limit, whether or not [s] was known. An existing session is kept by the
    caller's guard: [add_message] on a known id creates nothing, keeps the
    creation time and stores the former messages followed by the new one,
    up to eviction. *)
Theorem create_session_overwrites (clock : nat -> Z) (uuid_src : nat -> string)
    (w : World) (sid : string) :
  exists w',
    create_session clock uuid_src (Some sid) w = (Returns sid, w') /\
    stored w' sid
      = Some (mkChatSession sid [] (clock (clock_reads w))
                (clock (S (clock_reads w))) (limit_of w)) /\
    (forall k, k <> sid -> stored w' k = stored w k) /\
    match stored w sid with
    | None => True
    | Some s =>
        forall m, exists w2 s2,
          add_message clock uuid_src sid m w = (Returns tt, w2) /\
          stored w2 sid = Some s2 /\
          created_at s2 = created_at s /\
          messages s2 = truncate (limit_of w) (messages s ++ [m])
    end.
Proof.
  rewrite create_session_explicit. eexists. split; [reflexivity|].
  split; [unfold stored; cbn; apply lookup_insert_eq|].
  split; [intros k Hk; unfold stored; cbn; by rewrite lookup_insert_ne|].
  destruct (stored w sid) as [s|] eqn:Hs; [|exact I].
  intros m. rewrite (add_message_known clock uuid_src sid m w s Hs).
  eexists _, _. split; [reflexivity|].
  split; [unfold stored; cbn; apply lookup_insert_eq|].
  split; reflexivity.
Qed.

(** ** Failed turns *)

(** C5, as stated, fails: after a first turn with a user message of 10000
    characters and an answer of 8000, session ["s"] holds two messages; a
    second turn with 10000 characters whose request times out returns a
    failure, and the session still holds two messages: storing the user
    message evicted the first one. *)
Lemma failed_turn_count_unchanged :
  length (prev_messages after_long_turn "s") = 2%nat /\
  (exists e,
     fst (send_message tick ids long_then_timeout "s" (Py.mul "x" 10000)
            "fast_code" None after_long_turn) = Returns (Failure e)) /\
  length (prev_messages
            (snd (send_message tick ids long_then_timeout "s" (Py.mul "x" 10000)
                    "fast_code" None after_long_turn)) "s") = 2%nat.
Proof.
  split; [vm_compute; reflexivity|]. split.
  - eexists. vm_compute. reflexivity.
  - vm_compute. reflexivity.
Qed.

(** C5, amended. When the endpoint fails on the request of a turn,
    [send_message] returns a failure dictionary and raises nothing; the
    session then holds the truncation of its former messages followed by
    the new user message, and nothing else: no assistant message, the user
    message last. The number of stored messages is one more than before
    exactly when that append evicted nothing, that is when the total
    estimate with the new message is within the limit or the session was
    empty; otherwise it is at most the former number. *)
Theorem failed_turn_keeps_user_message (clock : nat -> Z) (uuid_src : nat -> string)
    (remote : nat -> Completion -> HttpOutcome) (w : World)
    (sid text mode : string) (custom : option string) :
  fails (remote (length (requests w)) (request_of text mode custom)) = true ->
  exists e w' s' u,
    send_message clock uuid_src remote sid text mode custom w
      = (Returns (Failure (error_response e sid mode)), w') /\
    role u = "user" /\ content u = text /\
    stored w' sid = Some s' /\
    messages s' = truncate (limit_of w) (prev_messages w sid ++ [u]) /\
    last (messages s') = Some u /\
    (length (messages s') = S (length (prev_messages w sid))
     <-> (count_tokens (prev_messages w sid ++ [u]) <= limit_of w
          \/ prev_messages w sid = [])) /\
    (length (messages s') <= S (length (prev_messages w sid)))%nat.
Proof.
  intros Hf.
  destruct (send_message_cases clock uuid_src remote sid text mode custom w)
    as (w1 & s1 & u & _ & Hrole & Hcont & Hs1 & Hm1 & _ & [[_ [e E]]|Hok]).
  2:{ destruct Hok as (answer & trace & _ & _ & _ & Hr & _).
      rewrite Hr in Hf. discriminate. }
  exists e, (logged w1 (request_of text mode custom)), s1, u.
  split; [exact E|]. do 2 (split; [assumption|]).
  split; [exact Hs1|]. split; [exact Hm1|].
  rewrite Hm1. split; [apply truncate_last|].
  destruct (truncate_suffix (limit_of w) (prev_messages w sid ++ [u]))
    as (k & Hk & Hdrop).
  assert (length (prev_messages w sid ++ [u]) = S (length (prev_messages w sid)))
    as Hlen by (rewrite length_app; simpl; lia).
  split.
  - rewrite <- Hlen. split.
    + intros H.
      assert (truncate (limit_of w) (prev_messages w sid ++ [u])
              = (prev_messages w sid ++ [u])%list) as Hid.
      { rewrite Hdrop in *. rewrite length_drop in H.
        replace k with 0%nat by lia. reflexivity. }
      apply truncate_loop_keeps_all in Hid as [?|Hle]; [by left|right].
      rewrite Hlen in Hle. destruct (prev_messages w sid); [done|simpl in Hle; lia].
    + intros H. unfold truncate.
      replace (truncate_loop (limit_of w) (count_tokens (prev_messages w sid ++ [u]))
                 (prev_messages w sid ++ [u]))
        with (prev_messages w sid ++ [u])%list; [done|].
      symmetry. apply truncate_loop_keeps_all.
      destruct H as [? | ->]; [by left | right; simpl; lia].
  - rewrite Hdrop, length_drop. lia.
Qed.

Lemma failed_turn_keeps_user_message_witness :
  fails (always_timeout (length (requests initial_world))
           (request_of "This should timeout" "fast_code" None)) = true /\
  exists e w' s' u,
    send_message tick ids always_timeout "test-session" "This should timeout"
      "fast_code" None initial_world
      = (Returns (Failure (error_response e "test-session" "fast_code")), w') /\
    role u = "user" /\ content u = "This should timeout" /\
    stored w' "test-session" = Some s' /\
    messages s'
      = truncate (limit_of initial_world)
          (prev_messages initial_world "test-session" ++ [u]) /\
    last (messages s') = Some u /\
    (length (messages s') = S (length (prev_messages initial_world "test-session"))
     <-> (count_tokens (prev_messages initial_world "test-session" ++ [u])
            <= limit_of initial_world
          \/ prev_messages initial_world "test-session" = [])) /\
    (length (messages s')
     <= S (length (prev_messages initial_world "test-session")))%nat.
Proof.
  split; [reflexivity|].
  apply (failed_turn_keeps_user_message tick ids always_timeout initial_world
           "test-session" "This should timeout" "fast_code" None).
  reflexivity.
Defined.

(** ** Failure categories *)


(** C7 at the input of the repository's [test_timeout_error]: the request
    times out, [chat_completion] raises its timeout text, and the turn
    returns category [unknown] without a retry delay, where the claim and
    that test expect [timeout] with a delay. *)
Theorem timeout_reported_as_unknown :
  fst (send_message tick ids always_timeout "test-session" "This should timeout"
         "fast_code" None initial_world)
  = Returns (Failure (mkErrorResponse
                        "Request timed out. DeepSeek server might be overloaded"
                        "test-session" "fast_code" "unknown" None)).
Proof. vm_compute. reflexivity. Qed.

(** ** Successful turns *)

(** C8, as stated, fails: on the second turn of a session the returned
    context length is 3 while the session holds 4 messages once the
    assistant message is appended. *)
Lemma context_length_is_not_final_length :
  (exists r,
     fst (send_message tick ids always_ok "s" "What's my name?" "fast_code" None
            after_first_turn) = Returns (Success r) /\
     context_length r = 3%nat) /\
  length (prev_messages
            (snd (send_message tick ids always_ok "s" "What's my name?" "fast_code"
                    None after_first_turn)) "s") = 4%nat.
Proof.
  split; [eexists; split; vm_compute; reflexivity|]. vm_compute. reflexivity.
Qed.

(** C8, amended. When the endpoint answers, [send_message] returns a
    success dictionary with the id, the content, the reasoning trace and the
    token estimate of the assistant message it stored last in the session,
    the requested mode and the session id; its context length is the length
    of the outbound list built before the request: with [n] the number of
    messages the session held once the user message was stored, it is 2
    when [n] is 1 and [n] otherwise. *)
Theorem success_result (clock : nat -> Z) (uuid_src : nat -> string)
    (remote : nat -> Completion -> HttpOutcome) (w : World)
    (sid text mode : string) (custom : option string)
    (answer : string) (trace : option string) :
  remote (length (requests w)) (request_of text mode custom) = HttpOk answer trace ->
  exists w' s' a u n,
    send_message clock uuid_src remote sid text mode custom w
      = (Returns (Success (mkSuccessResponse (id a) (content a) (thinking a)
                             mode sid (if (n =? 1)%nat then 2%nat else n)
                             (tokens a))), w') /\
    role a = "assistant" /\ content a = answer /\
    thinking a = trace_of mode trace /\
    tokens a = _estimate_tokens (content a) /\
    stored w' sid = Some s' /\
    last (messages s') = Some a /\
    role u = "user" /\ content u = text /\
    n = length (truncate (limit_of w) (prev_messages w sid ++ [u])).
Proof.
  intros Hr.
  destruct (send_message_cases clock uuid_src remote sid text mode custom w)
    as (w1 & s1 & u & _ & Hrole & Hcont & Hs1 & Hm1 & _ & [[Hf _]|Hok]).
  { rewrite Hr in Hf. discriminate. }
  destruct Hok as (answer' & trace' & w' & s' & a & Hr' & E & Ha1 & Ha2 & Ha3 & Ha4
                   & Hs' & Hm' & _).
  rewrite Hr in Hr'. injection Hr' as <- <-.
  exists w', s', a, u, (length (messages s1)).
  split.
  { assert (length (outbound (system_prompt_of mode custom)
                      (map to_api (messages s1)))
            = if (length (messages s1) =? 1)%nat then 2%nat
              else length (messages s1)) as <-.
    { unfold outbound. rewrite length_map.
      destruct (length (messages s1) =? 1)%nat eqn:En; simpl;
        rewrite length_map; [|done].
      apply Nat.eqb_eq in En. by rewrite En. }
    by rewrite E, Ha2, Ha3. }
  split; [exact Ha1|]. split; [exact Ha2|]. split; [exact Ha3|].
  split; [by rewrite Ha4, Ha2|]. split; [exact Hs'|].
  split; [rewrite Hm'; apply truncate_last|].
  split; [exact Hrole|]. split; [exact Hcont|]. by rewrite Hm1.
Qed.

Lemma success_result_witness :
  always_ok (length (requests initial_world))
    (request_of "My name is John" "fast_code" None) = HttpOk "Sure." None /\
  exists w' s' a u n,
    send_message tick ids always_ok "s" "My name is John" "fast_code" None
      initial_world
      = (Returns (Success (mkSuccessResponse (id a) (content a) (thinking a)
                             "fast_code" "s" (if (n =? 1)%nat then 2%nat else n)
                             (tokens a))), w') /\
    role a = "assistant" /\ content a = "Sure." /\
    thinking a = trace_of "fast_code" None /\
    tokens a = _estimate_tokens (content a) /\
    stored w' "s" = Some s' /\
    last (messages s') = Some a /\
    role u = "user" /\ content u = "My name is John" /\
    n = length (truncate (limit_of initial_world)
                  (prev_messages initial_world "s" ++ [u])).
Proof.
  split; [reflexivity|].
  apply (success_result tick ids always_ok initial_world "s" "My name is John"
           "fast_code" None "Sure." None).
  reflexivity.
Defined.

(** ** The request sent to the endpoint *)

(** Every turn returns a dictionary, raises nothing, and sends exactly one
    request, [request_of]: the system prompt and the user message of this
    turn, whatever the session holds. *)
Lemma send_message_request (clock : nat -> Z) (uuid_src : nat -> string)
    (remote : nat -> Completion -> HttpOutcome) (w : World)
    (sid text mode : string) (custom : option string) :
  exists r w',
    send_message clock uuid_src remote sid text mode custom w = (Returns r, w') /\
    requests w' = (requests w ++ [request_of text mode custom])%list.
Proof.
  destruct (send_message_cases clock uuid_src remote sid text mode custom w)
    as (w1 & s1 & u & Eu & _ & _ & _ & _ & _ & [[_ [e E]]|Hok]).
  - eexists _, _. split; [exact E|]. cbn.
    destruct (user_phase_spec clock uuid_src sid text w)
      as (w1' & s1' & u' & Eu' & _ & _ & _ & _ & _ & _ & _ & Hreq & _).
    rewrite Eu in Eu'. injection Eu' as <- <-. by rewrite Hreq.
  - destruct Hok as (answer & trace & w' & s' & a & _ & E & _ & _ & _ & _ & _ & _
                     & Hreq & _).
    eexists _, _. split; [exact E | exact Hreq].
Qed.

(** C2 at a second turn (the run of the repository's
    [test_context_persistence]): after the user message is stored the
    assembled context is the three messages of the session and the
    [fast_code] template carries temperature 0.3, but the request sent holds
    the system prompt and the last user message only, with temperature 0.7,
    4000 tokens and thinking disabled. *)
Theorem second_turn_request_drops_context :
  fst ((user_phase tick ids "s" "What's my name?";; get_context_messages "s")
         after_first_turn)
    = Returns [mkApiMessage "user" "My name is John";
               mkApiMessage "assistant" "Sure.";
               mkApiMessage "user" "What's my name?"] /\
  tpl_temperature (template_of "fast_code") = 3 # 10 /\
  requests (snd (send_message tick ids always_ok "s" "What's my name?" "fast_code"
                   None after_first_turn))
    = [mkCompletion [mkApiMessage "system" fast_code_system;
                     mkApiMessage "user" "My name is John"]
         (7 # 10) 4000 false;
       mkCompletion [mkApiMessage "system" fast_code_system;
                     mkApiMessage "user" "What's my name?"]
         (7 # 10) 4000 false].
Proof. repeat split; vm_compute; reflexivity. Qed.

(** C4 at a second turn, in a reasoning mode: the outbound list built by
    [send_message] has three messages and no system message, yet the request
    sent starts with a system message carrying the system prompt, as the
    request of the first turn did. *)
Theorem system_prompt_sent_again :
  outbound (system_prompt_of "deep_reasoning" None)
    (map to_api
       (prev_messages
          (snd (user_phase tick ids "s" "What's my name?" after_first_turn)) "s"))
    = [mkApiMessage "user" "My name is John";
       mkApiMessage "assistant" "Sure.";
       mkApiMessage "user" "What's my name?"] /\
  map req_messages
    (requests (snd (send_message tick ids always_ok "s" "What's my name?"
                      "deep_reasoning" None after_first_turn)))
    = [[mkApiMessage "system" fast_code_system;
        mkApiMessage "user" "My name is John"];
       [mkApiMessage "system" deep_reasoning_system;
        mkApiMessage "user" "What's my name?"]].
Proof. split; vm_compute; reflexivity. Qed.

(** ** Roles of the stored messages *)

Section Roles.

Variable clock : nat -> Z.
Variable uuid_src : nat -> string.
Variable remote : nat -> Completion -> HttpOutcome.

(** Each operation returns and keeps every stored message a user or an
    assistant message. *)
Lemma service_call_roles c w :
  map_Forall (fun _ s => Forall user_or_assistant (messages s))
    (sessions (context_manager w)) ->
  exists w',
    service_call clock uuid_src remote c w = (Returns tt, w') /\
    map_Forall (fun _ s => Forall user_or_assistant (messages s))
      (sessions (context_manager w')).
Proof.
  intros Inv.
  assert (forall k, Forall user_or_assistant (prev_messages w k)) as Hprev.
  { intros k. unfold prev_messages, stored.
    destruct (sessions (context_manager w) !! k) eqn:E; [by apply (Inv k)|done]. }
  destruct c as [sid text mode custom | sid | sid | | hours]; simpl.
  - destruct (send_message_cases clock uuid_src remote sid text mode custom w)
      as (w1 & s1 & u & _ & Hrole & _ & Hs1 & Hm1 & Ho1 & Hcases).
    assert (Forall user_or_assistant (messages s1)) as H1.
    { rewrite Hm1. apply truncate_Forall, Forall_app. split; [apply Hprev|].
      constructor; [by left | constructor]. }
    destruct Hcases as [[_ [e E]] | (answer & trace & w' & s' & a & _ & E & Ha & _
                                     & _ & _ & Hs' & Hm' & _ & Ho')].
    + unfold bind. rewrite E. eexists. split; [reflexivity|].
      intros k s Hk. change (stored w1 k = Some s) in Hk.
      destruct (decide (k = sid)) as [->|Hne].
      * rewrite Hs1 in Hk. by injection Hk as <-.
      * rewrite Ho1 in Hk by done. by apply (Inv k).
    + unfold bind. rewrite E. eexists. split; [reflexivity|].
      intros k s Hk. change (stored w' k = Some s) in Hk.
      destruct (decide (k = sid)) as [->|Hne].
      * rewrite Hs' in Hk. injection Hk as <-. rewrite Hm'.
        apply truncate_Forall, Forall_app. split; [exact H1|].
        constructor; [by right | constructor].
      * rewrite Ho' in Hk by done. by apply (Inv k).
  - unfold bind, get_chat_history, get_manager. cbn.
    exists w. split; [|exact Inv].
    by destruct (sessions (context_manager w) !! sid).
  - unfold bind, clear_session, has_session, get_manager, update_sessions. cbn.
    destruct (bool_decide (is_Some (sessions (context_manager w) !! sid))); cbn.
    + eexists. split; [reflexivity|]. cbn. intros k s Hk.
      apply lookup_delete_Some in Hk as [_ Hk]. by apply (Inv k).
    + by exists w.
  - unfold bind. rewrite create_session_fresh. eexists. split; [reflexivity|].
    cbn. intros k s Hk.
    apply lookup_insert_Some in Hk as [[_ <-]|[_ Hk]]; [constructor|].
    by apply (Inv k).
  - destruct (cleanup_old_sessions_spec clock hours w) as (n & w' & E & _ & Hsub).
    unfold bind. rewrite E. exists w'. split; [reflexivity|].
    intros k s Hk. apply (Inv k). by apply Hsub.
Qed.

Lemma service_calls_roles cs : forall w,
  map_Forall (fun _ s => Forall user_or_assistant (messages s))
    (sessions (context_manager w)) ->
  exists w',
    service_calls clock uuid_src remote cs w = (Returns tt, w') /\
    map_Forall (fun _ s => Forall user_or_assistant (messages s))
      (sessions (context_manager w')).
Proof.
  induction cs as [|c cs IH]; intros w Inv.
  - by exists w.
  - destruct (service_call_roles c w Inv) as (w1 & E1 & Inv1).
    destruct (IH w1 Inv1) as (w2 & E2 & Inv2).
    exists w2. simpl. unfold bind. rewrite E1. by split.
Qed.

End Roles.

(** C10. Whatever sequence of service operations is run on a freshly
    constructed service, and whatever the clock, the ids and the endpoint
    do, the run returns and every message stored in any session has role
    [user] or [assistant]: the system message of a first turn only enters
    the list that [get_context_messages] built for that turn. *)
Theorem stored_roles (clock : nat -> Z) (uuid_src : nat -> string)
    (remote : nat -> Completion -> HttpOutcome) (calls : list ServiceCall) :
  exists w,
    service_calls clock uuid_src remote calls initial_world = (Returns tt, w) /\
    map_Forall (fun _ s => Forall (fun msg => role msg = "user" \/ role msg = "assistant")
                             (messages s))
      (sessions (context_manager w)).
Proof.
  apply service_calls_roles. intros k s. cbn. by rewrite lookup_empty.
Qed.

(** * Further properties of the modelled code *)

(** ** The token estimate *)

Lemma string_length_app (a b : string) :
  String.length (a ++ b) = (String.length a + String.length b)%nat.
Proof. induction a as [|c a IH]; simpl; [done | by rewrite IH]. Qed.

(** X1. The estimate is the length divided by four, rounded down: it is never
    negative, four times the estimate is at most the length and misses it by
    at most three, and the estimate of a concatenation is the sum of the
    estimates or one more. *)
Theorem estimate_tokens_bounds (a b : string) :
  0 <= _estimate_tokens a /\
  4 * _estimate_tokens a <= Z.of_nat (String.length a)
    < 4 * _estimate_tokens a + 4 /\
  _estimate_tokens a + _estimate_tokens b <= _estimate_tokens (a ++ b)
    <= _estimate_tokens a + _estimate_tokens b + 1.
Proof.
  unfold _estimate_tokens. rewrite string_length_app, Nat2Z.inj_add.
  set (x := Z.of_nat (String.length a)). set (y := Z.of_nat (String.length b)).
  assert (0 <= x) by (unfold x; lia). assert (0 <= y) by (unfold y; lia).
  pose proof (Z.div_mod x 4). pose proof (Z.mod_pos_bound x 4).
  pose proof (Z.div_mod y 4). pose proof (Z.mod_pos_bound y 4).
  pose proof (Z.div_mod (x + y) 4). pose proof (Z.mod_pos_bound (x + y) 4).
  lia.
Qed.

(** ** The eviction pass, beyond the invariant *)

(** X2. Running the pass a second time removes nothing more. *)
Theorem truncate_idempotent (limit : Z) (msgs : list ChatMessage) :
  truncate limit (truncate limit msgs) = truncate limit msgs.
Proof.
  destruct msgs as [|m l]; [reflexivity|].
  apply truncate_loop_keeps_all.
  destruct (truncate_bound limit (m :: l)) as [H|H]; [done | by left | right; lia].
Qed.

Lemma truncate_loop_minimal limit msgs :
  forall total, total = count_tokens msgs ->
  exists k,
    truncate_loop limit total msgs = drop k msgs /\
    (k <= pred (length msgs))%nat /\
    (forall j, (j < k)%nat -> limit < count_tokens (drop j msgs)).
Proof.
  induction msgs as [|m rest IH]; intros total Ht.
  - exists 0%nat. split; [done|]. split; [simpl; lia | intros j Hj; lia].
  - destruct rest as [|m2 rest'].
    + exists 0%nat. split; [done|]. split; [simpl; lia | intros j Hj; lia].
    + rewrite truncate_loop_step. destruct (total >? limit) eqn:E.
      * destruct (IH (total - _estimate_tokens (content m))) as (k & Hk & Hle & Hmin).
        { rewrite Ht, count_tokens_cons. lia. }
        exists (S k). split; [exact Hk|]. split; [simpl in *; lia|].
        intros [|j] Hj; [simpl; lia|]. simpl. apply Hmin. lia.
      * exists 0%nat. split; [done|]. split; [simpl; lia | intros j Hj; lia].
Qed.

(** X3. The pass keeps the longest tail of the list whose total estimate is
    within the limit, and the last message alone when no tail is: the
    result is the list without its first [k] messages, every shorter cut
    is above the limit, and the cut made is within the limit unless it
    leaves a single message. *)
Theorem truncate_keeps_longest_fitting_tail (limit : Z) (msgs : list ChatMessage) :
  exists k,
    truncate limit msgs = drop k msgs /\
    (k <= pred (length msgs))%nat /\
    (forall j, (j < k)%nat -> limit < count_tokens (drop j msgs)) /\
    (count_tokens (drop k msgs) <= limit \/ (length (drop k msgs) <= 1)%nat).
Proof.
  destruct (truncate_loop_minimal limit msgs (count_tokens msgs) eq_refl)
    as (k & Hk & Hle & Hmin).
  exists k. fold (truncate limit msgs) in Hk. split; [exact Hk|].
  split; [exact Hle|]. split; [exact Hmin|].
  rewrite <- Hk. destruct msgs as [|m l]; [right; simpl; lia|].
  destruct (truncate_bound limit (m :: l)) as [H|H]; [done | by left | right; lia].
Qed.

(** ** Appends: tiny messages and unknown ids *)




(** X5. An append to an id the store does not know never fails: the session is
    created on the way, with that id, the manager's limit, the appended
    message as its only message, and timestamps read from the clock; the
    clock is read three times and every other session is left alone. *)
Theorem append_creates_unknown_session (clock : nat -> Z) (uuid_src : nat -> string)
    (w : World) (sid : string) (m : ChatMessage) :
  stored w sid = None ->
  exists w',
    add_message clock uuid_src sid m w = (Returns tt, w') /\
    stored w' sid
      = Some (mkChatSession sid [m] (clock (clock_reads w))
                (clock (S (S (clock_reads w)))) (limit_of w)) /\
    clock_reads w' = S (S (S (clock_reads w))) /\
    (forall k, k <> sid -> stored w' k = stored w k).
Proof.
  intros Hs. rewrite (add_message_unknown clock uuid_src sid m w Hs).
  eexists. split; [reflexivity|].
  split; [unfold stored; cbn; apply lookup_insert_eq|].
  split; [reflexivity|].
  intros k Hk. unfold stored. cbn. by rewrite lookup_insert_ne.
Qed.

Lemma append_creates_unknown_session_witness :
  stored initial_world "s" = None /\
  exists w',
    add_message tick ids "s" hello initial_world = (Returns tt, w') /\
    stored w' "s"
      = Some (mkChatSession "s" [hello] (tick (clock_reads initial_world))
                (tick (S (S (clock_reads initial_world))))
                (limit_of initial_world)) /\
    clock_reads w' = S (S (S (clock_reads initial_world))) /\
    (forall k, k <> "s" -> stored w' k = stored initial_world k).
Proof.
  split; [reflexivity|].
  apply (append_creates_unknown_session tick ids initial_world "s" hello).
  reflexivity.
Defined.

(** ** The cleanup of idle sessions *)





(** ** Clearing a session and reading the history *)

Lemma clear_session_explicit (w : World) (sid : string) :
  exists w',
    clear_session sid w = (Returns (bool_decide (is_Some (stored w sid))), w') /\
    stored w' sid = None /\
    (forall k, k <> sid -> stored w' k = stored w k) /\
    clear_session sid w' = (Returns false, w').
Proof.
  unfold clear_session, has_session, bind, get_manager, update_sessions, ret, stored.
  cbn. destruct (sessions (context_manager w) !! sid) as [s|] eqn:Hs; cbn.
  - eexists. split; [reflexivity|]. cbn. rewrite lookup_delete_eq.
    split; [done|]. split; [intros k Hk; by rewrite lookup_delete_ne|]. cbn.
    reflexivity.
  - exists w. rewrite Hs. by repeat split.
Qed.

(** X7. [clear_session] tells whether the session existed; afterwards the id is
    unknown, the other sessions are as before, and clearing again returns
    [False] and changes nothing. *)
Theorem clear_session_forgets (w : World) (sid : string) :
  exists w',
    clear_session sid w = (Returns (bool_decide (is_Some (stored w sid))), w') /\
    stored w' sid = None /\
    (forall k, k <> sid -> stored w' k = stored w k) /\
    clear_session sid w' = (Returns false, w').
Proof. apply clear_session_explicit. Qed.

(** X8. [get_chat_history] changes nothing and returns, in stored order, the
    stored messages whose role is [user] or [assistant] and no other: none
    has role [system], none is lost, and an unknown id gives the empty
    list. *)
Theorem chat_history_hides_other_roles (w : World) (sid : string) :
  exists history,
    get_chat_history sid w = (Returns history, w) /\
    sublist history (prev_messages w sid) /\
    Forall (fun m => role m = "user" \/ role m = "assistant") history /\
    Forall (fun m => role m <> "system") history /\
    (forall m, m ∈ prev_messages w sid ->
               role m = "user" \/ role m = "assistant" -> m ∈ history) /\
    (stored w sid = None -> history = []).
Proof.
  exists (filter (fun m => role m = "user" \/ role m = "assistant")
            (prev_messages w sid)).
  split.
  { unfold get_chat_history, bind, get_manager, ret, prev_messages, stored. cbn.
    by destruct (sessions (context_manager w) !! sid). }
  split; [apply sublist_filter|].
  split; [apply Forall_forall; intros m Hm;
          by apply list_elem_of_filter in Hm as [? _]|].
  split.
  { apply Forall_forall. intros m Hm.
    apply list_elem_of_filter in Hm as [[H|H] _]; rewrite H; discriminate. }
  split; [intros m Hm Hr; by apply list_elem_of_filter|].
  intros Hs. unfold prev_messages. by rewrite Hs.
Qed.

(** ** What a turn keeps *)

Section Preservation.

Variable clock : nat -> Z.
Variable uuid_src : nat -> string.
Variable remote : nat -> Completion -> HttpOutcome.

Lemma simple_chat_keeps_manager text sp w :
  context_manager (snd (simple_chat remote text sp w)) = context_manager w.
Proof.
  unfold simple_chat, bind, chat_completion.
  destruct (remote _ _); reflexivity.
Qed.

Lemma thinking_chat_keeps_manager text sp w :
  context_manager (snd (thinking_chat remote text sp w)) = context_manager w.
Proof.
  unfold thinking_chat, bind, chat_completion.
  destruct (remote _ _); reflexivity.
Qed.

(** A property [I] of the context manager that session creation keeps, and
    that an append keeps for the messages a turn builds, is kept by a whole
    turn, whatever the endpoint does. *)
Section Kept.

Variable I : ChatContextManager -> Prop.

Hypothesis Hcreate : forall w sid,
  I (context_manager w) ->
  I (context_manager (snd (create_session clock uuid_src (Some sid) w))).

Hypothesis Hadd : forall w sid m,
  role m = "user" \/ role m = "assistant" ->
  tokens m = _estimate_tokens (content m) ->
  I (context_manager w) ->
  I (context_manager (snd (add_message clock uuid_src sid m w))).

Lemma store_preserves {A} sid role0 content0 th (k : ChatMessage -> M A) w :
  role0 = "user" \/ role0 = "assistant" ->
  (forall m w', I (context_manager w') -> I (context_manager (snd (k m w')))) ->
  I (context_manager w) ->
  I (context_manager
       (snd ((do m <- new_message clock uuid_src role0 content0 th
                        (_estimate_tokens content0);
              add_message clock uuid_src sid m;; k m) w))).
Proof.
  intros Hrole Hk Hw.
  unfold bind, new_message, uuid4, now, ret. cbn -[add_message].
  match goal with
  | |- context [add_message _ _ _ ?m ?w1] =>
      pose proof (Hadd w1 sid m Hrole eq_refl Hw) as HA;
      destruct (add_message clock uuid_src sid m w1) as [[[]|e] w2]
  end; cbn in HA; [|exact HA].
  match goal with
  | |- context [k ?m w2] =>
      pose proof (Hk m w2 HA) as Hfin; destruct (k m w2) as [[r|e] w3]
  end; exact Hfin.
Qed.

Lemma user_phase_preserves sid text w :
  I (context_manager w) ->
  I (context_manager (snd (user_phase clock uuid_src sid text w))).
Proof.
  intros Hw. unfold user_phase, has_session, get_manager.
  unfold bind at 1 2 3, ret at 1. cbn -[add_message create_session new_message].
  destruct (bool_decide (is_Some (sessions (context_manager w) !! sid))).
  - unfold ret at 1.
    apply (store_preserves sid "user" text None (fun m => ret m) w);
      [by left | by intros | exact Hw].
  - unfold bind at 1 2.
    pose proof (Hcreate w sid Hw) as Hc.
    destruct (create_session clock uuid_src (Some sid) w) as [[s0|e] w0];
      [|exact Hc].
    unfold ret at 1.
    apply (store_preserves sid "user" text None (fun m => ret m) w0);
      [by left | by intros | exact Hc].
Qed.

Lemma model_phase_preserves sid text mode custom w :
  I (context_manager w) ->
  I (context_manager
       (snd (model_phase clock uuid_src remote sid text mode custom w))).
Proof.
  intros Hw. unfold model_phase.
  unfold bind at 1. rewrite get_context_messages_explicit.
  fold (template_of mode). fold (system_prompt_of mode custom).
  assert (I (context_manager
               (snd ((if tpl_thinking (template_of mode)
                      then
                        do r <- thinking_chat remote text
                                  (Some (system_prompt_of mode custom));
                        ret (fst r, Some (snd r))
                      else
                        do r <- simple_chat remote text
                                  (Some (system_prompt_of mode custom));
                        ret (r, None)) w)))) as Hchat.
  { destruct (tpl_thinking _); unfold bind.
    - pose proof (thinking_chat_keeps_manager text
                    (Some (system_prompt_of mode custom)) w) as E.
      destruct (thinking_chat _ _ _ _) as [[r|e] w2]; cbn in *; by rewrite E.
    - pose proof (simple_chat_keeps_manager text
                    (Some (system_prompt_of mode custom)) w) as E.
      destruct (simple_chat _ _ _ _) as [[r|e] w2]; cbn in *; by rewrite E. }
  unfold bind at 1.
  match goal with
  | H : I (context_manager (snd ?c)) |- _ => destruct c as [[reply|e] w2]
  end; [|exact Hchat]. cbn in Hchat.
  apply (store_preserves sid "assistant" (fst reply) (snd reply));
    [by right | by intros | exact Hchat].
Qed.

Lemma send_message_preserves sid text mode custom w :
  I (context_manager w) ->
  I (context_manager
       (snd (send_message clock uuid_src remote sid text mode custom w))).
Proof.
  intros Hw. rewrite send_message_phases. unfold try_except, bind.
  pose proof (user_phase_preserves sid text w Hw) as Hu.
  destruct (user_phase clock uuid_src sid text w) as [[u|e] w1]; [|exact Hu].
  pose proof (model_phase_preserves sid text mode custom w1 Hu) as Hm.
  destruct (model_phase clock uuid_src remote sid text mode custom w1)
    as [[r|e] w2]; exact Hm.
Qed.

End Kept.

End Preservation.

(** ** Invariants of the stored sessions *)

Section Invariants.

Variable clock : nat -> Z.
Variable uuid_src : nat -> string.
Variable remote : nat -> Completion -> HttpOutcome.

Lemma snd_bind_ret {A} (m : M A) w : snd ((m;; ret tt) w) = snd (m w).
Proof. unfold bind, ret. by destruct (m w) as [[a|e] w']. Qed.

Lemma create_session_well_kept osid w :
  map_Forall (well_kept (limit_of w)) (sessions (context_manager w)) ->
  map_Forall (well_kept (limit_of w))
    (sessions (context_manager (snd (create_session clock uuid_src osid w)))).
Proof.
  intros Inv. destruct osid as [sid|].
  - rewrite create_session_explicit. cbn. intros k s Hk.
    apply lookup_insert_Some in Hk as [[<- <-]|[_ Hk]]; [|by apply Inv].
    repeat split; cbn; [constructor | right; lia].
  - rewrite create_session_fresh. cbn. intros k s Hk.
    apply lookup_insert_Some in Hk as [[<- <-]|[_ Hk]]; [|by apply Inv].
    repeat split; cbn; [constructor | right; lia].
Qed.

Lemma add_message_well_kept sid m w :
  tokens m = _estimate_tokens (content m) ->
  map_Forall (well_kept (limit_of w)) (sessions (context_manager w)) ->
  map_Forall (well_kept (limit_of w))
    (sessions (context_manager (snd (add_message clock uuid_src sid m w)))).
Proof.
  intros Hm Inv.
  assert (forall l, Forall (fun m => tokens m = _estimate_tokens (content m)) l ->
            Forall (fun m => tokens m = _estimate_tokens (content m))
              (truncate (limit_of w) (l ++ [m]))
            /\ (count_tokens (truncate (limit_of w) (l ++ [m])) <= limit_of w
                \/ (length (truncate (limit_of w) (l ++ [m])) <= 1)%nat)) as Hnew.
  { intros l Hl. split.
    - apply truncate_Forall, Forall_app. split; [exact Hl | by constructor].
    - destruct (truncate_bound (limit_of w) (l ++ [m])) as [H|H];
        [by destruct l | by left | right; lia]. }
  destruct (stored w sid) as [s|] eqn:Hs.
  - rewrite (add_message_known clock uuid_src sid m w s Hs). cbn.
    destruct (Inv sid s Hs) as (Hid & Hmax & Htok & _).
    intros k s' Hk.
    apply lookup_insert_Some in Hk as [[<- <-]|[_ Hk]]; [|by apply Inv].
    destruct (Hnew (messages s) Htok). by repeat split.
  - rewrite (add_message_unknown clock uuid_src sid m w Hs). cbn.
    intros k s' Hk.
    apply lookup_insert_Some in Hk as [[<- <-]|[_ Hk]]; [|by apply Inv].
    destruct (Hnew [] (Forall_nil_2 _)). by repeat split.
Qed.

(** Each service operation keeps the limit of the manager and keeps every
    stored session well kept. *)
Lemma service_call_well_kept c w :
  map_Forall (well_kept (limit_of w)) (sessions (context_manager w)) ->
  limit_of (snd (service_call clock uuid_src remote c w)) = limit_of w /\
  map_Forall (well_kept (limit_of w))
    (sessions (context_manager (snd (service_call clock uuid_src remote c w)))).
Proof.
  intros Inv. destruct c as [sid text mode custom | sid | sid | | hours];
    unfold service_call; rewrite snd_bind_ret.
  - apply (send_message_preserves clock uuid_src remote
             (fun cm => mgr_max_context_tokens cm = limit_of w /\
                        map_Forall (well_kept (limit_of w)) (sessions cm))).
    + intros w0 sid0 [Hl H0]. change (limit_of w0 = limit_of w) in Hl.
      rewrite <- Hl in *.
      split; [by rewrite create_session_explicit
             | by apply create_session_well_kept].
    + intros w0 sid0 m _ Hm [Hl H0]. change (limit_of w0 = limit_of w) in Hl.
      rewrite <- Hl in *.
      destruct (add_message_spec clock uuid_src sid0 m w0)
        as (w' & s' & E & _ & _ & _ & Hlim & _).
      split; [by rewrite E | by apply add_message_well_kept].
    + by split.
  - unfold get_chat_history, bind, get_manager. cbn.
    by destruct (sessions (context_manager w) !! sid).
  - destruct (clear_session_explicit w sid) as (w' & E & Hgone & Hother & _).
    rewrite E. cbn.
    assert (limit_of w' = limit_of w) as Hlim.
    { revert E. unfold clear_session, has_session, bind, get_manager,
        update_sessions, ret. cbn.
      destruct (bool_decide _); cbn; by intros [= <-]. }
    split; [exact Hlim|]. intros k s Hk. change (stored w' k = Some s) in Hk.
    destruct (decide (k = sid)) as [->|Hne]; [congruence|].
    rewrite Hother in Hk by done. by apply Inv.
  - split; [by rewrite create_session_fresh | by apply create_session_well_kept].
  - destruct (cleanup_old_sessions_spec clock hours w) as (n & w' & E & Hlim & Hsub).
    rewrite E. cbn. split; [exact Hlim|].
    intros k s Hk. apply Inv. by apply Hsub.
Qed.

Lemma service_calls_well_kept cs : forall w,
  map_Forall (well_kept (limit_of w)) (sessions (context_manager w)) ->
  limit_of (snd (service_calls clock uuid_src remote cs w)) = limit_of w /\
  map_Forall (well_kept (limit_of w))
    (sessions (context_manager (snd (service_calls clock uuid_src remote cs w)))).
Proof.
  induction cs as [|c cs IH]; intros w Inv; [by split|].
  destruct (service_call_well_kept c w Inv) as [Hl Hk].
  simpl. unfold bind.
  destruct (service_call clock uuid_src remote c w) as [[[]|e] w1]; cbn in *;
    [|by split].
  rewrite <- Hl in Hk. destruct (IH w1 Hk) as [Hl' Hk'].
  split; [congruence | by rewrite <- Hl].
Qed.

Lemma tokens_total_count msgs :
  Forall (fun m => tokens m = _estimate_tokens (content m)) msgs ->
  tokens_total msgs = count_tokens msgs.
Proof.
  induction 1 as [|m l Hm _ IH]; [done|].
  rewrite count_tokens_cons. simpl. by rewrite Hm, IH.
Qed.

End Invariants.

(** X9. After any sequence of service operations on a fresh service, every
    stored session carries, in its own [session_id] field, the id it is
    stored under, and the limit 6000 of the manager. *)
Theorem stored_sessions_keep_id_and_limit (clock : nat -> Z)
    (uuid_src : nat -> string) (remote : nat -> Completion -> HttpOutcome)
    (calls : list ServiceCall) :
  map_Forall (fun k s => session_id s = k /\ max_context_tokens s = 6000)
    (sessions (context_manager
                 (snd (service_calls clock uuid_src remote calls initial_world)))).
Proof.
  destruct (service_calls_well_kept clock uuid_src remote calls initial_world)
    as [_ H]; [intros k s; cbn; by rewrite lookup_empty|].
  intros k s Hk. destruct (H k s Hk) as (? & ? & _). by split.
Qed.

(** X10. After any sequence of service operations on a fresh service, the
    [tokens] field of every stored message is the estimate of its content,
    and in every session the sum of these fields is at most 6000 unless the
    session holds at most one message. *)
Theorem stored_tokens_within_budget (clock : nat -> Z)
    (uuid_src : nat -> string) (remote : nat -> Completion -> HttpOutcome)
    (calls : list ServiceCall) :
  map_Forall (fun _ s =>
                Forall (fun m => tokens m = Z.of_nat (String.length (content m)) / 4)
                  (messages s) /\
                (tokens_total (messages s) <= 6000
                 \/ (length (messages s) <= 1)%nat))
    (sessions (context_manager
                 (snd (service_calls clock uuid_src remote calls initial_world)))).
Proof.
  destruct (service_calls_well_kept clock uuid_src remote calls initial_world)
    as [_ H]; [intros k s; cbn; by rewrite lookup_empty|].
  intros k s Hk. destruct (H k s Hk) as (_ & _ & Htok & Hsum).
  split; [exact Htok|]. by rewrite tokens_total_count.
Qed.

(** X11. After any sequence of service operations on a fresh service the history
    of a session is the whole list of its stored messages: the role filter
    of [get_chat_history] drops nothing. *)
Theorem chat_history_is_complete (clock : nat -> Z)
    (uuid_src : nat -> string) (remote : nat -> Completion -> HttpOutcome)
    (calls : list ServiceCall) (sid : string) :
  exists w,
    service_calls clock uuid_src remote calls initial_world = (Returns tt, w) /\
    get_chat_history sid w = (Returns (prev_messages w sid), w).
Proof.
  destruct (service_calls_roles clock uuid_src remote calls initial_world)
    as (w & E & Hroles); [intros k s; cbn; by rewrite lookup_empty|].
  exists w. split; [exact E|].
  unfold get_chat_history, bind, get_manager, ret, prev_messages, stored. cbn.
  destruct (sessions (context_manager w) !! sid) as [s|] eqn:Hs; [|done].
  do 2 f_equal. specialize (Hroles sid s Hs). cbn in Hroles.
  induction Hroles as [|m l Hm _ IH]; [done|].
  rewrite filter_cons_True by exact Hm. by rewrite IH.
Qed.

(** ** A turn and the endpoint *)

Section Turns.

Variable clock : nat -> Z.
Variable uuid_src : nat -> string.
Variable remote : nat -> Completion -> HttpOutcome.




End Turns.

(** X12. A turn never raises and changes one session only: it returns a
    dictionary, and every session other than the one addressed, as well as
    the limit of the manager, is as before. *)
Theorem turn_leaves_other_sessions_alone (clock : nat -> Z)
    (uuid_src : nat -> string) (remote : nat -> Completion -> HttpOutcome)
    (w : World) (sid text mode : string) (custom : option string) :
  exists r w',
    send_message clock uuid_src remote sid text mode custom w = (Returns r, w') /\
    limit_of w' = limit_of w /\
    (forall k, k <> sid -> stored w' k = stored w k).
Proof.
  assert (limit_of (snd (send_message clock uuid_src remote sid text mode custom w))
          = limit_of w) as Hlim.
  { apply (send_message_preserves clock uuid_src remote
             (fun cm => mgr_max_context_tokens cm = limit_of w)); [| |done].
    - intros w0 sid0 H. by rewrite create_session_explicit.
    - intros w0 sid0 m _ _ H.
      destruct (add_message_spec clock uuid_src sid0 m w0)
        as (w' & s' & E & _ & _ & _ & Hl & _).
      rewrite E. cbn. fold (limit_of w'). by rewrite Hl. }
  destruct (send_message_cases clock uuid_src remote sid text mode custom w)
    as (w1 & s1 & u & _ & _ & _ & _ & _ & Ho1 & [[_ [e E]]|Hok]).
  - rewrite E in *. eexists _, _. split; [reflexivity|]. split; [exact Hlim|].
    intros k Hk. by apply Ho1.
  - destruct Hok as (answer & trace & w' & s' & a & _ & E & _ & _ & _ & _ & _ & _
                     & _ & Ho').
    rewrite E in *. eexists _, _. split; [reflexivity|]. by split.
Qed.


(** ** Modes *)

Lemma template_of_unknown mode :
  mode <> "fast_code" -> mode <> "deep_reasoning" -> mode <> "code_review" ->
  template_of mode = fast_code_template.
Proof.
  intros H1 H2 H3. unfold template_of, prompt_templates.
  by rewrite !lookup_insert_ne, lookup_empty by done.
Qed.

Lemma tpl_thinking_modes mode :
  tpl_thinking (template_of mode) = true
  <-> mode = "deep_reasoning" \/ mode = "code_review".
Proof.
  destruct (decide (mode = "fast_code")) as [->|H1];
    [split; [discriminate | by intros [?|?]]|].
  destruct (decide (mode = "deep_reasoning")) as [->|H2]; [split; [by left|done]|].
  destruct (decide (mode = "code_review")) as [->|H3]; [split; [by right|done]|].
  rewrite template_of_unknown by done. split; [discriminate | by intros [?|?]].
Qed.

Section Modes.

Variable clock : nat -> Z.
Variable uuid_src : nat -> string.
Variable remote : nat -> Completion -> HttpOutcome.

(** The model phase depends on the mode through its template only, except
    for the [mode] entry of the dictionary. *)
Lemma model_phase_mode sid text m1 m2 custom w :
  template_of m1 = template_of m2 ->
  model_phase clock uuid_src remote sid text m1 custom w
  = (let (o, w') := model_phase clock uuid_src remote sid text m2 custom w in
     (match o with
      | Returns r => Returns (with_mode m1 r)
      | Raises e => Raises e
      end, w')).
Proof.
  intros H. unfold model_phase.
  fold (template_of m1). fold (template_of m2). rewrite H.
  unfold bind. rewrite get_context_messages_explicit.
  destruct (tpl_thinking (template_of m2)).
  - destruct (thinking_chat remote text _ w) as [[reply|e] w2]; [|reflexivity].
    unfold new_message, bind, uuid4, now, ret. cbn -[add_message].
    match goal with
    | |- context [add_message ?c ?us ?s ?m ?w0] =>
        destruct (add_message c us s m w0) as [[[]|e] w3]
    end; reflexivity.
  - destruct (simple_chat remote text _ w) as [[reply|e] w2]; [|reflexivity].
    unfold new_message, bind, uuid4, now, ret. cbn -[add_message].
    match goal with
    | |- context [add_message ?c ?us ?s ?m ?w0] =>
        destruct (add_message c us s m w0) as [[[]|e] w3]
    end; reflexivity.
Qed.

End Modes.

(** X14. A mode that is none of the three known ones is served with the
    [fast_code] profile: the turn does to the store and sends to the
    endpoint what it would for [fast_code], and returns the same
    dictionary but for its [mode] entry, which repeats the mode given. *)
Theorem unknown_mode_falls_back (clock : nat -> Z)
    (uuid_src : nat -> string) (remote : nat -> Completion -> HttpOutcome)
    (w : World) (sid text mode : string) (custom : option string) :
  mode <> "fast_code" -> mode <> "deep_reasoning" -> mode <> "code_review" ->
  exists r w',
    send_message clock uuid_src remote sid text "fast_code" custom w
      = (Returns r, w') /\
    send_message clock uuid_src remote sid text mode custom w
      = (Returns (with_mode mode r), w').
Proof.
  intros H1 H2 H3.
  destruct (send_message_request clock uuid_src remote w sid text "fast_code" custom)
    as (r & w' & E & _).
  exists r, w'. split; [exact E|].
  revert E. rewrite !send_message_phases. unfold try_except, bind.
  destruct (user_phase clock uuid_src sid text w) as [[u|e] w1].
  - rewrite (model_phase_mode clock uuid_src remote sid text mode "fast_code"
               custom w1) by (by rewrite template_of_unknown).
    destruct (model_phase clock uuid_src remote sid text "fast_code" custom w1)
      as [[r0|e] w2]; unfold ret; by intros [= <- <-].
  - unfold ret. by intros [= <- <-].
Qed.

Lemma unknown_mode_falls_back_witness :
  "bogus_mode" <> "fast_code" /\ "bogus_mode" <> "deep_reasoning" /\
  "bogus_mode" <> "code_review" /\
  exists r w',
    send_message tick ids always_ok "s" "Hello" "fast_code" None initial_world
      = (Returns r, w') /\
    send_message tick ids always_ok "s" "Hello" "bogus_mode" None initial_world
      = (Returns (with_mode "bogus_mode" r), w').
Proof.
  split; [discriminate|]. split; [discriminate|]. split; [discriminate|].
  apply (unknown_mode_falls_back tick ids always_ok initial_world "s" "Hello"
           "bogus_mode" None); discriminate.
Defined.

(** X15. A successful turn in one of the two reasoning modes always returns a
    reasoning text that is not empty (a fixed sentence when the endpoint
    gave none), and stores it with the assistant message; in every other
    mode it returns none, whatever the endpoint sent. *)
Theorem reasoning_only_in_reasoning_modes (clock : nat -> Z)
    (uuid_src : nat -> string) (remote : nat -> Completion -> HttpOutcome)
    (w : World) (sid text mode : string) (custom : option string)
    (answer : string) (trace : option string) :
  remote (length (requests w)) (request_of text mode custom) = HttpOk answer trace ->
  exists r w' a,
    send_message clock uuid_src remote sid text mode custom w
      = (Returns (Success r), w') /\
    last (prev_messages w' sid) = Some a /\
    thinking a = res_thinking r /\
    res_thinking r
      = (if bool_decide (mode = "deep_reasoning" \/ mode = "code_review")
         then Some (match trace with
                    | Some (String c s) => String c s
                    | _ => "No thinking process available"
                    end)
         else None).
Proof.
  intros Hr.
  destruct (send_message_cases clock uuid_src remote sid text mode custom w)
    as (w1 & s1 & u & _ & _ & _ & _ & _ & _ & [[Hf _]|Hok]).
  { rewrite Hr in Hf. discriminate. }
  destruct Hok as (answer' & trace' & w' & s' & a & Hr' & E & _ & _ & Hth & _
                   & Hs' & Hm' & _).
  rewrite Hr in Hr'. injection Hr' as <- <-.
  eexists _, w', a. split; [exact E|]. cbn.
  split; [unfold prev_messages; rewrite Hs', Hm'; apply truncate_last|].
  split; [exact Hth|].
  unfold trace_of. case_bool_decide as Hmode.
  - apply tpl_thinking_modes in Hmode. by rewrite Hmode.
  - destruct (tpl_thinking (template_of mode)) eqn:Et; [|done].
    apply tpl_thinking_modes in Et. done.
Qed.

Lemma reasoning_only_in_reasoning_modes_witness :
  always_ok (length (requests initial_world))
    (request_of "Design it" "deep_reasoning" None) = HttpOk "Sure." None /\
  exists r w' a,
    send_message tick ids always_ok "s" "Design it" "deep_reasoning" None
      initial_world = (Returns (Success r), w') /\
    last (prev_messages w' "s") = Some a /\
    thinking a = res_thinking r /\
    res_thinking r
      = (if bool_decide ("deep_reasoning" = "deep_reasoning"
                         \/ "deep_reasoning" = "code_review")
         then Some (match @None string with
                    | Some (String c s) => String c s
                    | _ => "No thinking process available"
                    end)
         else None).
Proof.
  split; [reflexivity|].
  apply (reasoning_only_in_reasoning_modes tick ids always_ok initial_world "s"
           "Design it" "deep_reasoning" None "Sure." None).
  reflexivity.
Defined.

(** ** Failure categories of the client's own texts *)


Lemma lower_char_idempotent c : Py.lower_char (Py.lower_char c) = Py.lower_char c.
Proof. destruct c as [[] [] [] [] [] [] [] []]; reflexivity. Qed.

Lemma lower_idempotent s : Py.lower (Py.lower s) = Py.lower s.
Proof.
  induction s as [|c s IH]; [done|]. simpl. by rewrite lower_char_idempotent, IH.
Qed.

(** X17. The category does not depend on the case of the letters of the text,
    and it is always one of four pairs: [rate_limit] with delay 60,
    [auth_error] without delay, [timeout] with delay 30, [unknown] without
    delay. *)
Theorem categorize_error_ignores_case (e : string) :
  categorize_error (Py.lower e) = categorize_error e /\
  (categorize_error e = ("rate_limit", Some 60)
   \/ categorize_error e = ("auth_error", None)
   \/ categorize_error e = ("timeout", Some 30)
   \/ categorize_error e = ("unknown", None)).
Proof.
  split.
  - unfold categorize_error. by rewrite lower_idempotent.
  - unfold categorize_error.
    destruct (_ || _); [by left|]. destruct (_ || _); [right; by left|].
    destruct (_ || _); [right; right; by left | by repeat right].
Qed.

(** ** The server of [fastapi_server.py] *)

(** X18. Without a usable key in the environment the server has no client, and
    then every chat request raises an [HTTPException] with status 500 and
    nothing is sent or changed; with a key the client is built and holds
    that key. *)
Theorem server_without_key (remote : nat -> Completion -> HttpOutcome)
    (env : option string) (request : ServerChatRequest) (w : World) :
  match env with
  | Some (String c r) =>
      exists client, server_client env = Some client /\
                     api_key client = String c r /\
                     authorization client = "Bearer " ++ String c r
  | _ =>
      server_client env = None /\
      server_chat_completion remote (server_client env) request w
      = (Returns (HTTPException 500
           "DeepSeek client not initialized. Check SILICONFLOW_KEY environment variable"),
         w)
  end.
Proof.
  destruct env as [[|c r]|]; cbn; [by split | by eexists | by split].
Qed.


(** ** The routes of [chat_api.py] *)

Section Api.

Variable clock : nat -> Z.
Variable uuid_src : nat -> string.
Variable remote : nat -> Completion -> HttpOutcome.

(** A turn returns a dictionary naming the session it was given, and that
    session exists afterwards. *)
Lemma send_message_result sid text mode custom w :
  exists r w',
    send_message clock uuid_src remote sid text mode custom w = (Returns r, w') /\
    result_session_id r = sid /\
    is_Some (stored w' sid).
Proof.
  destruct (send_message_cases clock uuid_src remote sid text mode custom w)
    as (w1 & s1 & u & _ & _ & _ & Hs1 & _ & _ & [[_ [e E]]|Hok]).
  - eexists _, _. split; [exact E|]. split; [reflexivity|]. by exists s1.
  - destruct Hok as (answer & trace & w' & s' & a & _ & E & _ & _ & _ & _ & Hs' & _).
    eexists _, _. split; [exact E|]. split; [reflexivity|]. by exists s'.
Qed.

End Api.


(** X21. The delete route confirms the removal of a known session, which is
    then gone, so that the same request repeated raises an [HTTPException]
    with status 404; for an unknown session it raises that exception at
    once and changes nothing. *)
Theorem api_clear_session_replies (w : World) (sid : string) :
  match stored w sid with
  | Some _ =>
      exists w',
        api_clear_chat_session true sid w
          = (Returns (Replies ("Session " ++ sid ++ " cleared successfully")), w') /\
        stored w' sid = None /\
        api_clear_chat_session true sid w'
          = (Returns (HTTPException 404 "Session not found"), w')
  | None =>
      api_clear_chat_session true sid w
        = (Returns (HTTPException 404 "Session not found"), w)
  end.
Proof.
  destruct (clear_session_explicit w sid) as (w' & E & Hgone & _ & E2).
  unfold api_clear_chat_session. cbn [negb]. unfold bind.
  destruct (stored w sid) as [s|] eqn:Hs.
  - rewrite E. cbn -[clear_session]. exists w'. split; [reflexivity|].
    split; [exact Hgone|]. by rewrite E2.
  - rewrite E. cbn. revert E.
    unfold clear_session, has_session, bind, get_manager, ret.
    unfold stored in Hs. cbn. rewrite Hs. cbn. by intros [= <-].
Qed.

(** X22. A turn followed by clearing its session: the clearing succeeds, and the
    session then has neither history nor context. *)
Theorem turn_then_clear (clock : nat -> Z)
    (uuid_src : nat -> string) (remote : nat -> Completion -> HttpOutcome)
    (w : World) (sid text mode : string) (custom : option string) :
  exists r w1 w2,
    send_message clock uuid_src remote sid text mode custom w = (Returns r, w1) /\
    clear_session sid w1 = (Returns true, w2) /\
    get_chat_history sid w2 = (Returns [], w2) /\
    get_context_messages sid w2 = (Returns [], w2).
Proof.
  destruct (send_message_result clock uuid_src remote sid text mode custom w)
    as (r & w1 & E & _ & Hs).
  destruct (clear_session_explicit w1 sid) as (w2 & E2 & Hgone & _).
  exists r, w1, w2. split; [exact E|].
  split; [by rewrite E2, bool_decide_true|].
  rewrite get_context_messages_explicit, Hgone.
  split; [|reflexivity].
  unfold get_chat_history, bind, get_manager, ret. cbn.
  unfold stored in Hgone. by rewrite Hgone.
Qed.

(** X23. The session-creation route followed by the history route: the id
    returned names a session with an empty history, also when the id drawn
    was already in use (the former messages are then discarded); both
    routes raise an [HTTPException] with status 500 without the service. *)
Theorem api_new_session_has_empty_history (clock : nat -> Z)
    (uuid_src : nat -> string) (w : World) :
  (exists sid w',
     api_create_chat_session clock uuid_src true w
       = (Returns (Replies (sid, true)), w') /\
     sid = uuid_src (uuid_draws w) /\
     api_get_chat_history true sid w'
       = (Returns (Replies (mkChatHistoryResponse sid [] 0)), w')) /\
  api_create_chat_session clock uuid_src false w
    = (Returns (HTTPException 500 "Chat service not available"), w) /\
  (forall sid, api_get_chat_history false sid w
               = (Returns (HTTPException 500 "Chat service not available"), w)).
Proof.
  split; [|by split].
  unfold api_create_chat_session. cbn [negb]. unfold bind at 1.
  rewrite create_session_fresh. eexists _, _. split; [reflexivity|].
  split; [reflexivity|].
  unfold api_get_chat_history, try_except, get_chat_history, bind, get_manager, ret.
  cbn. by rewrite lookup_insert_eq.
Qed.
